(** * Sandboxed code execution: a model of [tools/python_executor.py]

    The development embeds the code-execution tool of the repository
    (the safety prefilter, the image provisioner, the Docker runner, the
    workspace diff, the output truncation and the ledger writes of
    [run_python_code]) and states the properties of its specification
    against that embedding.

    Conventions.
    - A Python [str] is a [string], one element per character; the
      pictographs of the source's messages are kept as the bytes the
      source file holds.
    - A Python [int] is a [Z]; lengths are [nat].
    - Code that raises is modelled in a state-and-exception monad over an
      explicit [World]: the Docker engine, the workspace directory, the
      temporary directory, the ledger database and the clock. *)

From Stdlib Require Import ZArith Lia Ascii String List.
From stdpp Require Import base gmap strings list pretty sorting.

Local Open Scope Z_scope.

(* ================================================================== *)
(** * Text helpers (Python [str] operations used by the tool)          *)
(* ================================================================== *)

(** The newline character and the one-character string ["\n"]. *)
Definition nl : string := String "010"%char "".

(** [len(s)]. *)
Definition len (s : string) : nat := String.length s.

(** The first [n] characters of [s] (all of it when [s] is shorter). *)
Fixpoint str_take (n : nat) (s : string) : string :=
  match n, s with
  | O, _ => ""
  | S n', String c s' => String c (str_take n' s')
  | S _, EmptyString => ""
  end.

(** Python's slice [s[:k]] for any integer [k]: a negative bound counts
    from the end of the string. *)
Definition slice_to (s : string) (k : Z) : string :=
  if 0 <=? k then str_take (Z.to_nat k) s
  else str_take (len s - Z.to_nat (- k))%nat s.

(** [s.startswith(p)]. *)
Fixpoint startswith (p s : string) : bool :=
  match p, s with
  | EmptyString, _ => true
  | String a p', String b s' => if Ascii.eqb a b then startswith p' s' else false
  | String _ _, EmptyString => false
  end.

(** [p in s] for strings: [p] occurs as a contiguous run in [s]. *)
Fixpoint contains (p s : string) : bool :=
  startswith p s ||
  match s with
  | EmptyString => false
  | String _ s' => contains p s'
  end.

(** [sep.join(parts)]. *)
Fixpoint join (sep : string) (parts : list string) : string :=
  match parts with
  | [] => ""
  | [p] => p
  | p :: rest => p +:+ sep +:+ join sep rest
  end.

(** Python's white space among 8-bit characters ([str.isspace]). *)
Definition is_space (c : ascii) : bool :=
  let n := N_of_ascii c in
  ((9 <=? n) && (n <=? 13) || (28 <=? n) && (n <=? 32)
   || (n =? 133) || (n =? 160))%N.

Fixpoint lstrip (s : string) : string :=
  match s with
  | String c s' => if is_space c then lstrip s' else s
  | EmptyString => ""
  end.

(** [s.rstrip()]: drop the trailing white space. *)
Fixpoint rstrip (s : string) : string :=
  match s with
  | EmptyString => ""
  | String c s' =>
      match rstrip s' with
      | EmptyString => if is_space c then "" else String c ""
      | r => String c r
      end
  end.

(** [s.strip()]. *)
Definition strip (s : string) : string := rstrip (lstrip s).

(** Truthiness of a string: [if s:]. *)
Definition nonempty (s : string) : bool :=
  match s with EmptyString => false | _ => true end.

(* ================================================================== *)
(** * Settings ([utils/settings.py])                                   *)
(* ================================================================== *)

(** The sandbox configuration read from the environment at import time. *)
Record Settings := {
  SANDBOX_TIMEOUT : Z;
  SANDBOX_MAX_OUTPUT : Z;
  SANDBOX_MEMORY_LIMIT : string;
  SANDBOX_CPU_QUOTA : Z;
  SANDBOX_NETWORK_DISABLED : bool;
  WORKSPACE_DIR : string          (* [str(WORKSPACE_DIR.absolute())] *)
}.

(** The values used when the environment sets none of them. *)
Definition default_settings : Settings := {|
  SANDBOX_TIMEOUT := 30;
  SANDBOX_MAX_OUTPUT := 5000;
  SANDBOX_MEMORY_LIMIT := "512m";
  SANDBOX_CPU_QUOTA := 50000;
  SANDBOX_NETWORK_DISABLED := true;
  WORKSPACE_DIR := "/app/workspace"
|}.

(* ================================================================== *)
(** * Output Governor: [_sanitize_output]                              *)
(* ================================================================== *)

(** The trailing marker of a truncated output; [n] is [len(output)]. *)
Definition truncation_marker (n : nat) : string :=
  nl +:+ nl +:+ "... (truncated, " +:+ pretty n +:+ " total chars)".

(** [_sanitize_output(output, max_length)]. *)
Definition _sanitize_output (output : string) (max_length : Z) : string :=
  if max_length <? Z.of_nat (len output)
  then slice_to output max_length +:+ truncation_marker (len output)
  else output.

(* ================================================================== *)
(** * Safety Prefilter: [_validate_code_safety]                        *)
(* ================================================================== *)

Definition dangerous_patterns : list string :=
  ["__import__"; "eval("; "exec("; "compile("].

Definition traversal_patterns : list string := ["../"; "/.."].

(** Every pattern the prefilter looks for. *)
Definition prefilter_patterns : list string :=
  dangerous_patterns ++ traversal_patterns.

Definition dangerous_prefix : string := "‚ùå Dangerous operation detected: ".
Definition traversal_message : string := "‚ùå Path traversal detected".

(** [_validate_code_safety(code)]: the loop returns at the first pattern of
    [dangerous_patterns] that occurs in the code. *)
Definition _validate_code_safety (code : string) : bool * string :=
  match List.find (fun pattern => contains pattern code) dangerous_patterns with
  | Some pattern => (false, dangerous_prefix +:+ pattern)
  | None =>
      if contains "../" code || contains "/.." code
      then (false, traversal_message)
      else (true, "")
  end.

(* ================================================================== *)
(** * Exceptions                                                       *)
(* ================================================================== *)

(** A byte string, seen through the only operations the tool applies to
    it: its truth value and [decode("utf-8")]. *)
Inductive bytes :=
| Encoded (text : string)   (* the UTF-8 encoding of [text] *)
| Malformed.                (* bytes that are not valid UTF-8 *)

Definition bytes_truthy (b : bytes) : bool :=
  match b with Encoded t => nonempty t | Malformed => true end.

Definition bytes_app (a b : bytes) : bytes :=
  match a, b with
  | Encoded x, Encoded y => Encoded (x +:+ y)
  | _, _ => Malformed
  end.

(** An attribute read [obj.name]: the object may lack the attribute. *)
Inductive attr (A : Type) :=
| NoAttr
| HasAttr (a : A).
Arguments NoAttr {A}.
Arguments HasAttr {A} a.

(** [docker.errors.ContainerError], with the attributes the tool reads. *)
Record ContainerError := {
  exit_status : Z;
  ce_stdout : attr (option bytes);
  ce_stderr : option bytes;
  ce_message : string             (* [str(e)] *)
}.

(** The exceptions of the model. [ImageNotFound] and [ContainerErr] are
    subclasses of [DockerException]; [OtherException] is any exception
    outside that family, with its class name and message. *)
Inductive exn :=
| ImageNotFound (msg : string)
| ContainerErr (e : ContainerError)
| DockerException (msg : string)
| OtherException (type_name msg : string).

Definition is_DockerException (e : exn) : bool :=
  match e with OtherException _ _ => false | _ => true end.

Definition is_ImageNotFound (e : exn) : bool :=
  match e with ImageNotFound _ => true | _ => false end.

(** [str(e)]. *)
Definition str_of_exn (e : exn) : string :=
  match e with
  | ImageNotFound m | DockerException m | OtherException _ m => m
  | ContainerErr c => ce_message c
  end.

(** [type(e).__name__]. *)
Definition type_name_of (e : exn) : string :=
  match e with
  | ImageNotFound _ => "ImageNotFound"
  | ContainerErr _ => "ContainerError"
  | DockerException _ => "DockerException"
  | OtherException n _ => n
  end.

Inductive Result (A : Type) :=
| Ok (a : A)
| Raise (e : exn).
Arguments Ok {A} a.
Arguments Raise {A} e.

(* ================================================================== *)
(** * The world the tool acts on                                       *)
(* ================================================================== *)

Inductive stream := StdoutStream | StderrStream.

(** What one execution of the image's interpreter does with the script
    mounted at [/tmp/script.py]. Durations and clock readings are in
    hundredths of a second. *)
Record GuestRun := {
  g_duration : Z;
  g_output : list (stream * bytes);            (* chunks, in order *)
  g_exit_status : Z;
  g_effect : gmap string nat -> gmap string nat  (* on the workspace: name -> size *)
}.

(** The Docker engine as the SDK client sees it. The [_error] fields make
    the corresponding API call raise a [DockerException]. *)
Record Engine := {
  from_env_error : option string;
  images_get_error : option string;
  build_error : option string;
  run_error : option string;
  local_images : gset string;
  guest : option string -> GuestRun;
  error_has_stdout : bool;       (* does the SDK's [ContainerError] have a
                                    [stdout] attribute? *)
  builds : nat;                  (* calls of [images.build] *)
  launches : nat                 (* calls of [containers.run] *)
}.

(** [database/models/code_execution_models.py]. *)
Record CodeExecution := {
  ex_id : nat;
  ex_session_id : string;
  ex_user_id : option string;
  ex_code : string;
  ex_stdout : string;
  ex_stderr : string;
  ex_returncode : Z;
  ex_created_files : list string;
  ex_execution_time : Z;
  ex_created_at : Z
}.

Record WorkspaceFileMetadata := {
  wf_id : nat;
  wf_session_id : string;
  wf_filename : string;
  wf_file_path : string;
  wf_file_size : nat;
  wf_file_type : string;
  wf_description : option string;
  wf_execution_id : option nat;
  wf_created_at : Z
}.

Inductive Row :=
| ExecutionRow (r : CodeExecution)
| FileRow (r : WorkspaceFileMetadata).

(** The ledger database. [journal] lists the committed transactions, each
    with the rows it wrote; [commit_faults] says, for the commits to come,
    which ones fail ([true]: that commit raises). *)
Record Ledger := {
  code_executions : list CodeExecution;
  workspace_files : list WorkspaceFileMetadata;
  journal : list (list Row);
  commit_faults : list bool
}.

Record World := {
  clock : Z;
  engine : Engine;
  dockerfile_exists : bool;
  workspace : option (gmap string nat);   (* [None]: no such directory *)
  tmp_files : gmap string string;
  tmp_write_error : option string;
  uuid_supply : list string;
  ledger : Ledger;
  console : list string                   (* lines printed by the tool *)
}.

(** Computations of the tool: they read and change the world and either
    return a value or raise. *)
Definition M (A : Type) : Type := World -> Result A * World.

Definition ret {A} (a : A) : M A := fun w => (Ok a, w).

Definition raise {A} (e : exn) : M A := fun w => (Raise e, w).

Definition bind {A B} (m : M A) (k : A -> M B) : M B :=
  fun w =>
    match m w with
    | (Ok a, w') => k a w'
    | (Raise e, w') => (Raise e, w')
    end.

#[global] Instance M_ret : MRet M := @ret.
#[global] Instance M_bind : MBind M := fun A B k m => bind m k.

(** [try: m except C as e: h e], where [C] selects the exceptions caught. *)
Definition try_except {A} (m : M A) (C : exn -> bool) (h : exn -> M A) : M A :=
  fun w =>
    match m w with
    | (Raise e, w') => if C e then h e w' else (Raise e, w')
    | r => r
    end.

(** [except Exception]. *)
Definition Exception (e : exn) : bool := true.

(** [try: m finally: f]. *)
Definition try_finally {A} (m : M A) (f : M unit) : M A :=
  fun w =>
    match m w with
    | (r, w') =>
        match f w' with
        | (Ok _, w'') => (r, w'')
        | (Raise e, w'') => (Raise e, w'')
        end
    end.

(** [for x in xs: body x]. *)
Fixpoint for_each {A} (xs : list A) (body : A -> M unit) : M unit :=
  match xs with
  | [] => ret tt
  | x :: rest => bind (body x) (fun _ => for_each rest body)
  end.

Definition get_world : M World := fun w => (Ok w, w).
Definition modify_world (f : World -> World) : M unit := fun w => (Ok tt, f w).

Definition print (line : string) : M unit :=
  modify_world (fun w =>
    {| clock := clock w; engine := engine w;
       dockerfile_exists := dockerfile_exists w; workspace := workspace w;
       tmp_files := tmp_files w; tmp_write_error := tmp_write_error w;
       uuid_supply := uuid_supply w; ledger := ledger w;
       console := console w ++ [line] |}).

Definition set_engine (e : Engine) (w : World) : World :=
  {| clock := clock w; engine := e;
     dockerfile_exists := dockerfile_exists w; workspace := workspace w;
     tmp_files := tmp_files w; tmp_write_error := tmp_write_error w;
     uuid_supply := uuid_supply w; ledger := ledger w; console := console w |}.

Definition set_ledger (l : Ledger) (w : World) : World :=
  {| clock := clock w; engine := engine w;
     dockerfile_exists := dockerfile_exists w; workspace := workspace w;
     tmp_files := tmp_files w; tmp_write_error := tmp_write_error w;
     uuid_supply := uuid_supply w; ledger := l; console := console w |}.

Definition set_tmp_files (t : gmap string string) (w : World) : World :=
  {| clock := clock w; engine := engine w;
     dockerfile_exists := dockerfile_exists w; workspace := workspace w;
     tmp_files := t; tmp_write_error := tmp_write_error w;
     uuid_supply := uuid_supply w; ledger := ledger w; console := console w |}.

(** [time.time()]. *)
Definition time_time : M Z := fun w => (Ok (clock w), w).

(* ================================================================== *)
(** * The Docker SDK calls the tool makes                              *)
(* ================================================================== *)

Definition SANDBOX_IMAGE : string := "python-sandbox:latest".

(** [docker.from_env()]. *)
Definition docker_from_env : M unit :=
  fun w =>
    match from_env_error (engine w) with
    | Some msg => (Raise (DockerException msg), w)
    | None => (Ok tt, w)
    end.

(** [client.images.get(name)]. *)
Definition images_get (name : string) : M unit :=
  fun w =>
    match images_get_error (engine w) with
    | Some msg => (Raise (DockerException msg), w)
    | None =>
        if decide (name ∈ local_images (engine w)) then (Ok tt, w)
        else (Raise (ImageNotFound ("No such image: " +:+ name)), w)
    end.

(** [client.images.build(path=..., dockerfile=..., tag=tag, rm=True)]:
    every call counts as one build operation; a successful one tags the
    image locally. *)
Definition images_build (tag : string) : M unit :=
  fun w =>
    let e := engine w in
    let counted (imgs : gset string) :=
      {| from_env_error := from_env_error e;
         images_get_error := images_get_error e;
         build_error := build_error e; run_error := run_error e;
         local_images := imgs; guest := guest e;
         error_has_stdout := error_has_stdout e;
         builds := S (builds e); launches := launches e |} in
    match build_error e with
    | Some msg => (Raise (DockerException msg), set_engine (counted (local_images e)) w)
    | None => (Ok tt, set_engine (counted ({[ tag ]} ∪ local_images e)) w)
    end.

(** The keyword arguments of [containers.run] the tool passes. *)
Record ContainerConfig := {
  cc_image : string;
  cc_command : list string;
  cc_volumes : list (string * (string * string));  (* host path, bind, mode *)
  cc_working_dir : string;
  cc_mem_limit : string;
  cc_cpu_quota : Z;
  cc_cpu_period : Z;
  cc_network_disabled : bool;
  cc_remove : bool;
  cc_detach : bool;
  cc_stdout : bool;
  cc_stderr : bool
}.

(** [container.logs(stdout=want_out, stderr=want_err)]. *)
Fixpoint logs (want_out want_err : bool) (chunks : list (stream * bytes)) : bytes :=
  match chunks with
  | [] => Encoded ""
  | (StdoutStream, b) :: rest =>
      if want_out then bytes_app b (logs want_out want_err rest)
      else logs want_out want_err rest
  | (StderrStream, b) :: rest =>
      if want_err then bytes_app b (logs want_out want_err rest)
      else logs want_out want_err rest
  end.

(** The host path mounted at [target], if any. *)
Definition mounted_at (target : string) (volumes : list (string * (string * string)))
  : option string :=
  fst <$> List.find (fun v => String.eqb (fst (snd v)) target) volumes.

(** The value [containers.run] returns: [bytes] from the SDK. *)
Inductive py_output :=
| PyBytes (b : bytes)
| PyStr (s : string).

(** [client.containers.run] applied to [container_config], [detach=False]: the
    call blocks until the container exits, whatever time that takes; it
    returns the logs of the streams asked for when the exit status is 0
    and raises [ContainerError], which carries the exit status and the
    stderr logs, otherwise; the SDK's [ContainerError] is built from the
    container, the exit status, the command, the image and the stderr
    logs, so whether [e.stdout] can be read at all is left to the engine
    ([error_has_stdout]). An engine that cannot start the container raises
    another [DockerException]. *)
Definition containers_run (cc : ContainerConfig) : M py_output :=
  fun w =>
    let e := engine w in
    let e' := {| from_env_error := from_env_error e;
                 images_get_error := images_get_error e;
                 build_error := build_error e; run_error := run_error e;
                 local_images := local_images e; guest := guest e;
                 error_has_stdout := error_has_stdout e;
                 builds := builds e; launches := S (launches e) |} in
    match run_error e with
    | Some msg => (Raise (DockerException msg), set_engine e' w)
    | None =>
        if decide (cc_image cc ∈ local_images e) then
          let script := mounted_at "/tmp/script.py" (cc_volumes cc)
                        ≫= fun path => tmp_files w !! path in
          let g := guest e script in
          let w' := {| clock := clock w + g_duration g; engine := e';
                       dockerfile_exists := dockerfile_exists w;
                       workspace := Some (g_effect g (default ∅ (workspace w)));
                       tmp_files := tmp_files w;
                       tmp_write_error := tmp_write_error w;
                       uuid_supply := uuid_supply w; ledger := ledger w;
                       console := console w |} in
          if g_exit_status g =? 0
          then (Ok (PyBytes (logs (cc_stdout cc) (cc_stderr cc) (g_output g))), w')
          else (Raise (ContainerErr
                  {| exit_status := g_exit_status g;
                     ce_stdout :=
                       if error_has_stdout e
                       then HasAttr (Some (logs true false (g_output g)))
                       else NoAttr;
                     ce_stderr := Some (logs false true (g_output g));
                     ce_message :=
                       "Command 'python /tmp/script.py' in image '" +:+ cc_image cc
                       +:+ "' returned non-zero exit status "
                       +:+ pretty (g_exit_status g) |}), w')
        else (Raise (ImageNotFound ("No such image: " +:+ cc_image cc)), set_engine e' w)
    end.

(** [b.decode("utf-8")]. *)
Definition decode_utf8 (b : bytes) : M string :=
  match b with
  | Encoded t => ret t
  | Malformed => raise (OtherException "UnicodeDecodeError"
                          "'utf-8' codec can't decode bytes")
  end.

(* ================================================================== *)
(** * Environment Provisioner: [_ensure_docker_image]                  *)
(* ================================================================== *)

Definition dockerfile_missing_message : string :=
  "‚ùå Dockerfile.sandbox not found in project root".

Definition _ensure_docker_image : M (bool * string) :=
  try_except
    (docker_from_env;;
     try_except
       (images_get SANDBOX_IMAGE;;
        ret (true, "Image exists"))
       is_ImageNotFound
       (fun _ =>
          w ← get_world;
          if negb (dockerfile_exists w)
          then ret (false, dockerfile_missing_message)
          else
            print ("Building Docker image " +:+ SANDBOX_IMAGE +:+ "...");;
            images_build SANDBOX_IMAGE;;
            ret (true, "Image built successfully")))
    is_DockerException
    (fun e => ret (false, "‚ùå Docker error: " +:+ str_of_exn e)).

(* ================================================================== *)
(** * Sandboxed Runner: [_execute_in_docker]                           *)
(* ================================================================== *)

(** The dict [_execute_in_docker] returns. *)
Record RunOutcome := {
  out_stdout : string;
  out_stderr : string;
  out_returncode : Z
}.

Definition container_config (cfg : Settings) (script_path : string) : ContainerConfig := {|
  cc_image := SANDBOX_IMAGE;
  cc_command := ["python"; "/tmp/script.py"];
  cc_volumes := [ (WORKSPACE_DIR cfg, ("/workspace", "rw"));
                  (script_path, ("/tmp/script.py", "ro")) ];
  cc_working_dir := "/workspace";
  cc_mem_limit := SANDBOX_MEMORY_LIMIT cfg;
  cc_cpu_quota := SANDBOX_CPU_QUOTA cfg;
  cc_cpu_period := 100000;
  cc_network_disabled := SANDBOX_NETWORK_DISABLED cfg;
  cc_remove := true;
  cc_detach := false;
  cc_stdout := true;
  cc_stderr := true
|}.

Definition is_ContainerError (e : exn) : bool :=
  match e with ContainerErr _ => true | _ => false end.

(** The [except ContainerError as e] branch. *)
Definition container_error_outcome (e : ContainerError) : M RunOutcome :=
  out ← match ce_stdout e with
        | NoAttr => raise (OtherException "AttributeError"
                      "'ContainerError' object has no attribute 'stdout'")
        | HasAttr (Some b) => if bytes_truthy b then decode_utf8 b else ret ""
        | HasAttr None => ret ""
        end;
  err ← match ce_stderr e with
        | Some b => if bytes_truthy b then decode_utf8 b else ret (ce_message e)
        | None => ret (ce_message e)
        end;
  ret {| out_stdout := out; out_stderr := err; out_returncode := exit_status e |}.

Definition _execute_in_docker (cfg : Settings) (code : string) (script_path : string)
  : M RunOutcome :=
  try_except
    (docker_from_env;;
     try_except
       (output ← containers_run (container_config cfg script_path);
        out ← match output with
              | PyBytes b => decode_utf8 b
              | PyStr s => ret s
              end;
        ret {| out_stdout := out; out_stderr := ""; out_returncode := 0 |})
       is_ContainerError
       (fun e => match e with
                 | ContainerErr c => container_error_outcome c
                 | _ => raise e
                 end))
    is_DockerException
    (fun e => ret {| out_stdout := "";
                     out_stderr := "Docker execution error: " +:+ str_of_exn e;
                     out_returncode := -1 |}).

(* ================================================================== *)
(** * Execution Ledger ([database/db.py], [database/code_execution.py]) *)
(* ================================================================== *)

(** A SQLAlchemy session: the objects added and not yet committed. *)
Definition Session : Type := list Row.

(** [SessionLocal()]. *)
Definition SessionLocal : Session := [].

(** [db.add(obj)]. *)
Definition session_add (db : Session) (r : Row) : Session := db ++ [r].

(** Primary keys are handed out in increasing order. *)
Definition next_id (used : list nat) : nat := S (max_list used).

(** One INSERT: the row gets its primary key and its [created_at]. *)
Definition insert_row (now : Z) (r : Row) (l : Ledger) : Row * Ledger :=
  match r with
  | ExecutionRow x =>
      let y := {| ex_id := next_id (ex_id <$> code_executions l);
                  ex_session_id := ex_session_id x; ex_user_id := ex_user_id x;
                  ex_code := ex_code x; ex_stdout := ex_stdout x;
                  ex_stderr := ex_stderr x; ex_returncode := ex_returncode x;
                  ex_created_files := ex_created_files x;
                  ex_execution_time := ex_execution_time x;
                  ex_created_at := now |} in
      (ExecutionRow y,
       {| code_executions := code_executions l ++ [y];
          workspace_files := workspace_files l;
          journal := journal l; commit_faults := commit_faults l |})
  | FileRow x =>
      let y := {| wf_id := next_id (wf_id <$> workspace_files l);
                  wf_session_id := wf_session_id x; wf_filename := wf_filename x;
                  wf_file_path := wf_file_path x; wf_file_size := wf_file_size x;
                  wf_file_type := wf_file_type x;
                  wf_description := wf_description x;
                  wf_execution_id := wf_execution_id x;
                  wf_created_at := now |} in
      (FileRow y,
       {| code_executions := code_executions l;
          workspace_files := workspace_files l ++ [y];
          journal := journal l; commit_faults := commit_faults l |})
  end.

Fixpoint insert_rows (now : Z) (rows : list Row) (l : Ledger) : list Row * Ledger :=
  match rows with
  | [] => ([], l)
  | r :: rest =>
      let '(r', l1) := insert_row now r l in
      let '(rest', l2) := insert_rows now rest l1 in
      (r' :: rest', l2)
  end.

(** [db.commit()]: one transaction. It either writes every pending row, or
    raises and writes none. The rows as stored are returned; the session is
    empty afterwards. *)
Definition session_commit (db : Session) : M (list Row) :=
  fun w =>
    let l := ledger w in
    let upcoming := tail (commit_faults l) in
    match commit_faults l with
    | true :: _ =>
        (Raise (OtherException "OperationalError" "database is unavailable"),
         set_ledger {| code_executions := code_executions l;
                       workspace_files := workspace_files l;
                       journal := journal l; commit_faults := upcoming |} w)
    | _ =>
        let '(stored, l1) := insert_rows (clock w) db l in
        (Ok stored,
         set_ledger {| code_executions := code_executions l1;
                       workspace_files := workspace_files l1;
                       journal := journal l1 ++ (if stored is [] then [] else [stored]);
                       commit_faults := upcoming |} w)
    end.

(** [with get_db() as db: body]: a fresh session; [commit] when the body
    ends normally, [rollback] and re-raise when the body or that commit
    raises; the session is closed either way. The body returns the session
    as it left it. *)
Definition with_get_db {A} (body : Session -> M (A * Session)) : M A :=
  '(a, db) ← body SessionLocal;
  session_commit db;;
  ret a.

Module ExecutionRepository.

(** [ExecutionRepository.save_execution]: [db.add], [db.commit],
    [db.refresh]; the refreshed object carries its primary key. *)
Definition save_execution (db : Session) (session_id code stdout stderr : string)
    (returncode : Z) (created_files : list string) (execution_time : Z)
    (user_id : option string) : M (CodeExecution * Session) :=
  let execution :=
    {| ex_id := 0%nat; ex_session_id := session_id; ex_user_id := user_id;
       ex_code := code; ex_stdout := stdout; ex_stderr := stderr;
       ex_returncode := returncode; ex_created_files := created_files;
       ex_execution_time := execution_time; ex_created_at := 0 |} in
  let db := session_add db (ExecutionRow execution) in
  stored ← session_commit db;
  match last stored with
  | Some (ExecutionRow execution) => ret (execution, SessionLocal)
  | _ => raise (OtherException "InvalidRequestError" "instance is not persistent")
  end.

End ExecutionRepository.

Module WorkspaceRepository.

(** [WorkspaceRepository.save_file_metadata]. *)
Definition save_file_metadata (db : Session) (session_id filename file_path : string)
    (file_size : nat) (file_type : string) (description : option string)
    (execution_id : option nat) : M (WorkspaceFileMetadata * Session) :=
  let file_meta :=
    {| wf_id := 0%nat; wf_session_id := session_id; wf_filename := filename;
       wf_file_path := file_path; wf_file_size := file_size;
       wf_file_type := file_type; wf_description := description;
       wf_execution_id := execution_id; wf_created_at := 0 |} in
  let db := session_add db (FileRow file_meta) in
  stored ← session_commit db;
  match last stored with
  | Some (FileRow file_meta) => ret (file_meta, SessionLocal)
  | _ => raise (OtherException "InvalidRequestError" "instance is not persistent")
  end.

End WorkspaceRepository.

(* ================================================================== *)
(** * Workspace and temporary files                                    *)
(* ================================================================== *)

(** The names in the workspace directory; none when it does not exist. *)
Definition listing (w : World) : gset string :=
  match workspace w with
  | Some files => dom files
  | None => ∅
  end.

(** [set(os.listdir(WORKSPACE_DIR)) if WORKSPACE_DIR.exists() else set()]. *)
Definition workspace_listing : M (gset string) :=
  fun w => (Ok (listing w), w).

(** Filesystem Diff Tracker: [list(files_after - files_before)]. *)
Definition new_files_of (files_before files_after : gset string) : list string :=
  elements (files_after ∖ files_before).

(** [uuid.uuid4().hex[:8]]. *)
Definition uuid4_hex8 : M string :=
  fun w =>
    match uuid_supply w with
    | u :: rest =>
        (Ok (str_take 8 u),
         {| clock := clock w; engine := engine w;
            dockerfile_exists := dockerfile_exists w; workspace := workspace w;
            tmp_files := tmp_files w; tmp_write_error := tmp_write_error w;
            uuid_supply := rest; ledger := ledger w; console := console w |})
    | [] => (Ok "00000000", w)
    end.

(** [tempfile.gettempdir()]. *)
Definition gettempdir : string := "/tmp".

(** [path.write_text(content, encoding="utf-8")]. *)
Definition write_text (path content : string) : M unit :=
  fun w =>
    match tmp_write_error w with
    | Some msg => (Raise (OtherException "OSError" msg), w)
    | None => (Ok tt, set_tmp_files (<[ path := content ]> (tmp_files w)) w)
    end.

(** The [finally] block of [run_python_code]: remove the script if it is
    still there. *)
Definition cleanup_script (script_path : string) : M unit :=
  fun w =>
    match tmp_files w !! script_path with
    | Some _ => (Ok tt, set_tmp_files (delete script_path (tmp_files w)) w)
    | None => (Ok tt, w)
    end.

(** [Path(name).suffix]: from the last dot on, unless that dot starts or
    ends the name. *)
Fixpoint from_last_dot (s : string) : option string :=
  match s with
  | EmptyString => None
  | String c s' =>
      match from_last_dot s' with
      | Some r => Some r
      | None => if Ascii.eqb c "."%char then Some s else None
      end
  end.

Definition path_suffix (name : string) : string :=
  match from_last_dot name with
  | Some suf => if (len suf <? len name)%nat && (1 <? len suf)%nat then suf else ""
  | None => ""
  end.

(** [s.lstrip('.')]. *)
Fixpoint lstrip_dots (s : string) : string :=
  match s with
  | String c s' => if Ascii.eqb c "."%char then lstrip_dots s' else s
  | EmptyString => ""
  end.

(** [file_path.suffix.lstrip('.') or 'unknown']. *)
Definition file_type_of (filename : string) : string :=
  let t := lstrip_dots (path_suffix filename) in
  if nonempty t then t else "unknown".

(** [_save_file_metadata(session_id, filename, execution_id)]. *)
Definition _save_file_metadata (session_id filename : string)
    (execution_id : option nat) : M unit :=
  try_except
    (w ← get_world;
     match workspace w ≫= (fun files => files !! filename) with
     | None => ret tt
     | Some file_size =>
         let file_type := file_type_of filename in
         with_get_db (fun db =>
           '(_, db) ← WorkspaceRepository.save_file_metadata db session_id filename
                        filename file_size file_type None execution_id;
           ret (tt, db))
     end)
    Exception
    (fun e => print ("Warning: Failed to save file metadata: " +:+ str_of_exn e)).

(* ================================================================== *)
(** * End-to-end orchestration: [run_python_code]                      *)
(* ================================================================== *)

(** [m] run to its end, its exception (if any) handed back as a value. *)
Definition attempt {A} (m : M A) : M (Result A) :=
  fun w => match m w with (r, w') => (Ok r, w') end.

(** The line printed when saving the execution fails. *)
Definition save_warning (e : exn) : string :=
  "Warning: Failed to save execution to database: " +:+ str_of_exn e.

(** The block "Save to database" of [run_python_code]: the value of
    [execution_id] after it. The execution record is saved in the session
    of the [with] block; the metadata of each new file is saved by
    [_save_file_metadata], which opens a session of its own; whatever the
    block raises is printed as a warning and dropped. *)
Definition save_to_database (session_id code stdout stderr : string) (returncode : Z)
    (new_files : list string) (execution_time : Z) : M (option nat) :=
  let warn (e : exn) := print (save_warning e) in
  saved ← attempt (ExecutionRepository.save_execution SessionLocal session_id code
                     stdout stderr returncode new_files execution_time None);
  match saved with
  | Raise e => warn e;; ret None
  | Ok (execution, db) =>
      let execution_id := Some (ex_id execution) in
      try_except
        (for_each new_files (fun filename =>
           _save_file_metadata session_id filename execution_id);;
         session_commit db;;
         ret tt)
        Exception
        warn;;
      ret execution_id
  end.

(** [sorted(names)]. *)
Definition sorted (names : list string) : list string := merge_sort String.le names.

(** [f"{t:.2f}"] for a time in hundredths of a second. *)
Definition format_2f (t : Z) : string :=
  let cents := Z.abs t mod 100 in
  (if t <? 0 then "-" else "") +:+ pretty (Z.abs t / 100) +:+ "."
  +:+ (if cents <? 10 then "0" else "") +:+ pretty cents.

(** [f"{execution_id}"]. *)
Definition format_id (execution_id : option nat) : string :=
  match execution_id with
  | None => "None"
  | Some n => pretty n
  end.

Definition success_banner : string :=
  "‚úÖ Code executed successfully in Docker sandbox.".
Definition failure_banner (returncode : Z) : string :=
  "‚ùå Code execution failed with exit code " +:+ pretty returncode +:+ ".".
Definition output_section (cfg : Settings) (stdout : string) : string :=
  nl +:+ "üì§ Output:" +:+ nl
  +:+ _sanitize_output stdout (SANDBOX_MAX_OUTPUT cfg).
Definition errors_section (cfg : Settings) (stderr : string) : string :=
  nl +:+ "‚ö†Ô∏è Errors/Warnings:" +:+ nl
  +:+ _sanitize_output stderr (SANDBOX_MAX_OUTPUT cfg).
Definition created_files_line (new_files : list string) : string :=
  nl +:+ "üìÅ Created files: " +:+ join ", " (sorted new_files).
Definition saved_in_line (cfg : Settings) : string :=
  "üìÇ Files saved in: " +:+ WORKSPACE_DIR cfg.
Definition execution_time_line (execution_time : Z) : string :=
  nl +:+ "‚è±Ô∏è Execution time: " +:+ format_2f execution_time +:+ "s".
Definition results_stored_line (execution_id : option nat) : string :=
  "üíæ Results stored (ID: " +:+ format_id execution_id +:+ ")".

(** The block "Build response": the list [response_parts]. *)
Definition response_parts (cfg : Settings) (returncode : Z) (stdout stderr : string)
    (new_files : list string) (execution_time : Z) (execution_id : option nat)
  : list string :=
  [ if returncode =? 0 then success_banner else failure_banner returncode ]
  ++ (if nonempty stdout then [output_section cfg stdout] else [])
  ++ (if nonempty stderr then [errors_section cfg stderr] else [])
  ++ (match new_files with
      | [] => []
      | _ => [created_files_line new_files; saved_in_line cfg]
      end)
  ++ [ execution_time_line execution_time; results_stored_line execution_id ].

Definition provisioning_hint : string :=
  nl +:+ nl +:+ "Please ensure Docker is installed and Dockerfile.sandbox exists.".

Definition execution_error (e : exn) : string :=
  "üí• Execution error: " +:+ type_name_of e +:+ ": " +:+ str_of_exn e.

(** The part of the [try] block of [run_python_code] that follows the call
    of [_execute_in_docker]: strip the outputs, diff the workspace, time
    the run, save it to the database and build the response. *)
Definition record_and_respond (cfg : Settings) (code session_id : string)
    (start_time : Z) (files_before : gset string) (result : RunOutcome) : M string :=
  let stdout := strip (out_stdout result) in
  let stderr := strip (out_stderr result) in
  let returncode := out_returncode result in
  files_after ← workspace_listing;
  let new_files := new_files_of files_before files_after in
  now ← time_time;
  let execution_time := now - start_time in
  execution_id ← save_to_database session_id code stdout stderr returncode
                    new_files execution_time;
  ret (join nl (response_parts cfg returncode stdout stderr new_files
                  execution_time execution_id)).

(** The path of the temporary script. *)
Definition script_path_of (script_id : string) : string :=
  gettempdir +:+ "/sandbox_script_" +:+ script_id +:+ ".py".

(** [run_python_code(code, session_id)]. *)
Definition run_python_code (cfg : Settings) (code session_id : string) : M string :=
  start_time ← time_time;
  let '(is_safe, error_msg) := _validate_code_safety code in
  if negb is_safe then ret error_msg else
  '(image_ok, image_msg) ← _ensure_docker_image;
  if negb image_ok then ret (image_msg +:+ provisioning_hint) else
  files_before ← workspace_listing;
  script_id ← uuid4_hex8;
  let script_path := script_path_of script_id in
  try_finally
    (try_except
       (write_text script_path code;;
        result ← _execute_in_docker cfg code script_path;
        record_and_respond cfg code session_id start_time files_before result)
       Exception
       (fun e => ret (execution_error e)))
    (cleanup_script script_path).

(* ================================================================== *)
(** * Ledger queries ([database/code_execution.py]) and the history tool *)
(* ================================================================== *)

(** A query reads the committed rows of the ledger. *)
Definition query {A} (q : Ledger -> A) : M A :=
  fun w => (Ok (q (ledger w)), w).

(** [desc(created_at)]: [a] may come before [b]. *)
Definition newer_first (a b : CodeExecution) : Prop :=
  ex_created_at b <= ex_created_at a.

Definition file_newer_first (a b : WorkspaceFileMetadata) : Prop :=
  wf_created_at b <= wf_created_at a.

#[global] Instance newer_first_dec : RelDecision newer_first :=
  fun a b => decide (ex_created_at b <= ex_created_at a).

#[global] Instance file_newer_first_dec : RelDecision file_newer_first :=
  fun a b => decide (wf_created_at b <= wf_created_at a).

(** [order_by(desc(CodeExecution.created_at))]; rows with the same
    [created_at] come in an order the database picks, here the one the
    sort leaves them in. *)
Definition most_recent_first (rows : list CodeExecution) : list CodeExecution :=
  merge_sort newer_first rows.

Definition files_most_recent_first (rows : list WorkspaceFileMetadata)
  : list WorkspaceFileMetadata :=
  merge_sort file_newer_first rows.

(** [ExecutionRepository.get_session_history(db, session_id, limit)], for a
    limit that is not negative (what a negative LIMIT does depends on the
    database engine). *)
Definition get_session_history (l : Ledger) (session_id : string) (limit : nat)
  : list CodeExecution :=
  take limit
    (most_recent_first
       (List.filter (fun e => String.eqb (ex_session_id e) session_id)
          (code_executions l))).

(** One hour of the clock. *)
Definition hour : Z := 360000.

(** [ExecutionRepository.get_recent_executions(db, hours, limit)] at the
    time [now]. *)
Definition get_recent_executions (l : Ledger) (now hours : Z) (limit : nat)
  : list CodeExecution :=
  let since := now - hours * hour in
  take limit
    (most_recent_first
       (List.filter (fun e => since <=? ex_created_at e) (code_executions l))).

(** [WorkspaceRepository.get_session_files(db, session_id)]. *)
Definition get_session_files (l : Ledger) (session_id : string)
  : list WorkspaceFileMetadata :=
  files_most_recent_first
    (List.filter (fun f => String.eqb (wf_session_id f) session_id)
       (workspace_files l)).


(** [s.split('\n')[0]]. *)
Fixpoint first_line (s : string) : string :=
  match s with
  | EmptyString => ""
  | String c s' => if Ascii.eqb c "010"%char then "" else String c (first_line s')
  end.

Section History.

(** [created_at.strftime('%Y-%m-%d %H:%M:%S')], the calendar rendering of a
    clock reading. *)
Variable strftime : Z -> string.

(** The lines of one execution in [get_execution_history]; [i] counts
    from 1. *)
Definition history_entry (i : nat) (exec : CodeExecution) : list string :=
  let status := if ex_returncode exec =? 0 then "‚úÖ" else "‚ùå" in
  [ nl +:+ pretty i +:+ ". " +:+ status +:+ " ID: " +:+ pretty (ex_id exec)
    +:+ " | " +:+ strftime (ex_created_at exec);
    "   Time: " +:+ format_2f (ex_execution_time exec) +:+ "s" ]
  ++ (match ex_created_files exec with
      | [] => []
      | files => [ "   Files: " +:+ join ", " files ]
      end)
  ++ [ "   Code: " +:+ str_take 60 (first_line (ex_code exec)) +:+ "..." ].

(** [enumerate(executions, start)] with the loop body of the tool. *)
Fixpoint history_entries (start : nat) (executions : list CodeExecution) : list string :=
  match executions with
  | [] => []
  | exec :: rest => history_entry start exec ++ history_entries (S start) rest
  end.

Definition no_history_message (session_id : string) : string :=
  "üìú No execution history found for session '" +:+ session_id +:+ "'".

Definition history_header (n : nat) : string :=
  "üìú Execution History (last " +:+ pretty n +:+ " runs):" +:+ nl.

(** [get_execution_history(session_id, limit)]. *)
Definition get_execution_history (session_id : string) (limit : nat) : M string :=
  try_except
    (with_get_db (fun db =>
       executions ← query (fun l => get_session_history l session_id limit);
       match executions with
       | [] => ret (no_history_message session_id, db)
       | _ =>
           ret (join nl (history_header (length executions)
                         :: history_entries 1 executions), db)
       end))
    Exception
    (fun e => ret ("Error fetching execution history: " +:+ str_of_exn e)).

End History.

(* ================================================================== *)
(** * Notions used to state the properties                             *)
(* ================================================================== *)

(** The engine error, if any, that keeps [_execute_in_docker] from running
    the script at all: the client cannot be made, the engine refuses the
    launch, or the image is not there at launch time. *)
Definition engine_failure (w : World) : option string :=
  match from_env_error (engine w), run_error (engine w) with
  | Some msg, _ => Some msg
  | None, Some msg => Some msg
  | None, None =>
      if decide (SANDBOX_IMAGE ∈ local_images (engine w)) then None
      else Some ("No such image: " +:+ SANDBOX_IMAGE)
  end.

(** The run of the guest that [_execute_in_docker] launches for the script
    at [script_path]. *)
Definition guest_run (w : World) (script_path : string) : GuestRun :=
  guest (engine w) (tmp_files w !! script_path).


(** No commit to come fails. *)
Definition fault_free (l : Ledger) : Prop :=
  Forall (fun fault => fault = false) (commit_faults l).

(** The execution records and the file records among some rows. *)
Definition executions_in (rows : list Row) : list CodeExecution :=
  omap (fun r => match r with ExecutionRow e => Some e | FileRow _ => None end) rows.

Definition files_in (rows : list Row) : list WorkspaceFileMetadata :=
  omap (fun r => match r with FileRow f => Some f | ExecutionRow _ => None end) rows.

(** [l'] is [l] after the transactions [txs] have been committed, in that
    order, and nothing else has been written. *)
Definition grows_by (l l' : Ledger) (txs : list (list Row)) : Prop :=
  journal l' = journal l ++ txs
  /\ code_executions l' = code_executions l ++ executions_in (concat txs)
  /\ workspace_files l' = workspace_files l ++ files_in (concat txs).

(** [w'] differs from [w] in the ledger and the console at most. *)
Definition same_host (w w' : World) : Prop :=
  clock w' = clock w /\ engine w' = engine w
  /\ dockerfile_exists w' = dockerfile_exists w
  /\ workspace w' = workspace w /\ tmp_files w' = tmp_files w
  /\ tmp_write_error w' = tmp_write_error w /\ uuid_supply w' = uuid_supply w.

(** A transaction that holds one file record and nothing else. *)
Definition file_transaction (r : WorkspaceFileMetadata) : list Row := [FileRow r].

(** A call [run_python_code cfg code _] in world [w] got as far as running
    the script: the prefilter accepted the code, the image was ready, the
    script was written at [script_path] and [_execute_in_docker] returned
    [result], leaving the world [w4]; [files_before] is the snapshot taken
    before the run. *)
Definition script_ran (cfg : Settings) (code : string) (w : World)
    (files_before : gset string) (script_path : string)
    (result : RunOutcome) (w4 : World) : Prop :=
  fst (_validate_code_safety code) = true
  /\ exists image_msg w1 script_id w2 w3,
       _ensure_docker_image w = (Ok (true, image_msg), w1)
       /\ files_before = listing w1
       /\ uuid4_hex8 w1 = (Ok script_id, w2)
       /\ script_path = script_path_of script_id
       /\ write_text script_path code w2 = (Ok tt, w3)
       /\ _execute_in_docker cfg code script_path w3 = (Ok result, w4).

(** The file record [r] is what [_save_file_metadata session_id filename
    execution_id] writes for a file of the workspace [files]: the name as
    file name and as path, the size the workspace gives, the type read off
    the name, no description. *)
Definition file_record_of (files : option (gmap string nat))
    (session_id : string) (execution_id : option nat) (filename : string)
    (r : WorkspaceFileMetadata) : Prop :=
  wf_session_id r = session_id /\ wf_filename r = filename
  /\ wf_file_path r = filename
  /\ files ≫= (fun fs => fs !! filename) = Some (wf_file_size r)
  /\ wf_file_type r = file_type_of filename
  /\ wf_description r = None
  /\ wf_execution_id r = execution_id.

(** The string is made of white space only. *)
Fixpoint all_space (s : string) : bool :=
  match s with
  | EmptyString => true
  | String c s' => is_space c && all_space s'
  end.

(** The string starts, or ends, with a white space character. *)
Definition starts_with_space (s : string) : bool :=
  match s with
  | EmptyString => false
  | String c _ => is_space c
  end.

Fixpoint ends_with_space (s : string) : bool :=
  match s with
  | EmptyString => false
  | String c EmptyString => is_space c
  | String _ s' => ends_with_space s'
  end.

(* ================================================================== *)
(** * Concrete worlds for the examples                                 *)
(* ================================================================== *)

Definition empty_ledger (faults : list bool) : Ledger :=
  {| code_executions := []; workspace_files := []; journal := [];
     commit_faults := faults |}.

(** An engine that answers, with the sandbox image built, whose guest
    behaves as [g] on every script. *)
Definition ready_engine (g : GuestRun) : Engine :=
  {| from_env_error := None; images_get_error := None; build_error := None;
     run_error := None; local_images := {[ SANDBOX_IMAGE ]};
     guest := fun _ => g; error_has_stdout := false;
     builds := 0; launches := 0 |}.

(** A host with an empty workspace and an empty ledger. *)
Definition fresh_world (e : Engine) (faults : list bool) : World :=
  {| clock := 1000; engine := e; dockerfile_exists := true;
     workspace := Some ∅; tmp_files := ∅; tmp_write_error := None;
     uuid_supply := ["0123456789abcdef0123456789abcdef"];
     ledger := empty_ledger faults; console := [] |}.

(** A guest that sleeps for 60 seconds and exits normally. *)
Definition sleeper : GuestRun :=
  {| g_duration := 6000; g_output := []; g_exit_status := 0;
     g_effect := fun files => files |}.

Definition sleeper_code : string :=
  "import time" +:+ nl +:+ "time.sleep(60)".

(** A guest that prints [n] times the letter [x] on its stdout and writes
    [n] times the letter [y] on its stderr. *)
Fixpoint letters (n : nat) (c : ascii) : string :=
  match n with
  | O => ""
  | S n' => String c (letters n' c)
  end.

Definition printer (n m : nat) : GuestRun :=
  {| g_duration := 5;
     g_output := [ (StdoutStream, Encoded (letters n "x"%char +:+ nl));
                   (StderrStream, Encoded (letters m "y"%char)) ];
     g_exit_status := 0;
     g_effect := fun files => files |}.


(** A guest that writes two files into the workspace. *)
Definition writer : GuestRun :=
  {| g_duration := 5; g_output := [ (StdoutStream, Encoded ("done" +:+ nl)) ];
     g_exit_status := 0;
     g_effect := fun files => <[ "a.txt" := 3%nat ]> (<[ "b.png" := 7%nat ]> files) |}.

Definition writer_code : string :=
  "from pathlib import Path" +:+ nl
  +:+ "Path('/workspace/a.txt').write_text('abc')" +:+ nl
  +:+ "Path('/workspace/b.png').write_bytes(b'1234567')" +:+ nl
  +:+ "print('done')".

(** The script path of a call made in a [fresh_world]. *)
Definition fresh_script_path : string := "/tmp/sandbox_script_01234567.py".

(** The world [fresh_world (ready_engine g) faults] once the script [code]
    has run in it. *)
Definition after_script (g : GuestRun) (code : string) (faults : list bool) : World :=
  {| clock := 1000 + g_duration g;
     engine := {| from_env_error := None; images_get_error := None;
                  build_error := None; run_error := None;
                  local_images := {[ SANDBOX_IMAGE ]};
                  guest := fun _ => g; error_has_stdout := false;
                  builds := 0; launches := 1 |};
     dockerfile_exists := true;
     workspace := Some (g_effect g ∅);
     tmp_files := {[ fresh_script_path := code ]};
     tmp_write_error := None; uuid_supply := [];
     ledger := empty_ledger faults; console := [] |}.

(** An engine whose client cannot be made. *)
Definition unreachable_engine : Engine :=
  {| from_env_error := Some "Error while fetching server API version";
     images_get_error := None; build_error := None; run_error := None;
     local_images := {[ SANDBOX_IMAGE ]}; guest := fun _ => sleeper;
     error_has_stdout := false; builds := 0; launches := 0 |}.

(** A host on which the image has not been built. *)
Definition unbuilt_engine : Engine :=
  {| from_env_error := None; images_get_error := None; build_error := None;
     run_error := None; local_images := ∅; guest := fun _ => sleeper;
     error_has_stdout := false; builds := 0; launches := 0 |}.

(** A script that [printer 3 2] is the run of. *)
Definition echo_code : string :=
  "import sys" +:+ nl +:+ "print('x' * 3)" +:+ nl +:+ "sys.stderr.write('y' * 2)".

(** A host without the image and without the build definition file. *)
Definition bare_world : World :=
  {| clock := 1000; engine := unbuilt_engine; dockerfile_exists := false;
     workspace := Some ∅; tmp_files := ∅; tmp_write_error := None;
     uuid_supply := []; ledger := empty_ledger []; console := [] |}.

(** A guest whose output is not valid UTF-8. *)
Definition garbler : GuestRun :=
  {| g_duration := 5; g_output := [ (StdoutStream, Malformed) ];
     g_exit_status := 0; g_effect := fun files => files |}.

Definition garbler_code : string :=
  "import sys" +:+ nl +:+ "sys.stdout.buffer.write(bytes([255, 254]))".

(* ================================================================== *)
(** * Proof automation                                                 *)
(* ================================================================== *)

(** Unfolds the monad's operations in the goal. *)
Ltac unfold_monad :=
  unfold mbind, M_bind, mret, M_ret, bind, ret, raise, try_except, try_finally,
    attempt, get_world, modify_world, time_time, Exception in *.

(** Proves [script_ran] for a call with [code] in a [fresh_world] [w] whose
    image is built, by running the model. *)
Ltac run_script w code :=
  split; [reflexivity|];
  exists "Image exists", w, "01234567", (snd (uuid4_hex8 w)),
    (snd (write_text fresh_script_path code (snd (uuid4_hex8 w))));
  split_and!; reflexivity.

(** Closes a goal [grows_by l l' [tx]] once both ledgers are explicit. *)
Ltac one_file_row :=
  unfold grows_by, file_transaction; simpl; rewrite ?app_nil_r;
  split_and!; reflexivity.

(* ================================================================== *)
(** * Theorems                                                         *)
(* ================================================================== *)

Lemma len_app (a b : string) : len (a +:+ b) = (len a + len b)%nat.
Proof. unfold len. induction a as [|c a IH]; simpl; [reflexivity | now rewrite IH]. Qed.

Lemma len_str_take (n : nat) (s : string) : len (str_take n s) = Nat.min n (len s).
Proof.
  revert s. induction n as [|n IH]; intros [|c s]; simpl; try reflexivity.
  unfold len in *. simpl. now rewrite IH.
Qed.

Lemma str_take_all (n : nat) (s : string) : (len s <= n)%nat -> str_take n s = s.
Proof.
  revert s. induction n as [|n IH]; intros [|c s]; unfold len; simpl; intros H;
    try reflexivity; try lia.
  f_equal. apply IH. unfold len. lia.
Qed.


(** A longer text is cut at the bound and the marker is appended. *)
Lemma sanitize_output_cut (text : string) (max_length : Z) :
  0 <= max_length ->
  max_length < Z.of_nat (len text) ->
  _sanitize_output text max_length
  = str_take (Z.to_nat max_length) text +:+ truncation_marker (len text).
Proof.
  intros Hmax Hlong. unfold _sanitize_output, slice_to.
  destruct (Z.ltb_spec max_length (Z.of_nat (len text))); [|lia].
  destruct (Z.leb_spec 0 max_length); [reflexivity | lia].
Qed.

(** A negative bound is read by the slice as counted from the end. *)
Example sanitize_output_negative_bound :
  _sanitize_output "abcdef" (-1) = "abcde" +:+ truncation_marker 6.
Proof. reflexivity. Qed.



(** ** Text *)

Lemma app_String (c : ascii) (a b : string) : String c a +:+ b = String c (a +:+ b).
Proof. reflexivity. Qed.

Lemma app_empty_l (b : string) : "" +:+ b = b.
Proof. reflexivity. Qed.









Lemma app_inj_r (a b c : string) : a +:+ c = b +:+ c -> a = b.
Proof.
  revert b. induction a as [|x a IH]; intros [|y b] Hab.
  - reflexivity.
  - exfalso. apply (f_equal len) in Hab.
    change (len c = S (len (b +:+ c))) in Hab. rewrite len_app in Hab. lia.
  - exfalso. apply (f_equal len) in Hab.
    change (S (len (a +:+ c)) = len c) in Hab. rewrite len_app in Hab. lia.
  - rewrite !app_String in Hab. injection Hab as -> Hab. f_equal. now apply IH.
Qed.

(** The marker states the original length: it determines it. *)
Lemma truncation_marker_inj (n m : nat) :
  truncation_marker n = truncation_marker m -> n = m.
Proof.
  unfold truncation_marker. intros H.
  do 3 apply String.app_inj in H.
  apply app_inj_r in H. now apply (inj pretty) in H.
Qed.

(** ** Safety Prefilter *)

(** The prefilter accepts exactly the codes that hold none of its patterns. *)
Lemma validate_code_safety_accepts (code : string) :
  fst (_validate_code_safety code) = true
  <-> forall p, In p prefilter_patterns -> contains p code = false.
Proof.
  unfold _validate_code_safety, prefilter_patterns, dangerous_patterns,
    traversal_patterns. simpl.
  destruct (contains "__import__" code) eqn:H1; simpl.
  { split; [discriminate|]. intros H. rewrite H in H1; [discriminate | tauto]. }
  destruct (contains "eval(" code) eqn:H2; simpl.
  { split; [discriminate|]. intros H. rewrite H in H2; [discriminate | tauto]. }
  destruct (contains "exec(" code) eqn:H3; simpl.
  { split; [discriminate|]. intros H. rewrite H in H3; [discriminate | tauto]. }
  destruct (contains "compile(" code) eqn:H4; simpl.
  { split; [discriminate|]. intros H. rewrite H in H4; [discriminate | tauto]. }
  destruct (contains "../" code) eqn:H5; simpl.
  { split; [discriminate|]. intros H. rewrite H in H5; [discriminate | tauto]. }
  destruct (contains "/.." code) eqn:H6; simpl.
  { split; [discriminate|]. intros H. rewrite H in H6; [discriminate | tauto]. }
  split; [|reflexivity]. intros _ p Hp.
  repeat (destruct Hp as [<-|Hp]; [assumption|]). destruct Hp.
Qed.



(** ** Environment Provisioner *)

Lemma ensure_docker_image_exists (w : World) :
  from_env_error (engine w) = None ->
  images_get_error (engine w) = None ->
  SANDBOX_IMAGE ∈ local_images (engine w) ->
  _ensure_docker_image w = (Ok (true, "Image exists"), w).
Proof.
  intros Henv Hget Himg.
  unfold _ensure_docker_image, docker_from_env, images_get. unfold_monad.
  rewrite Henv, Hget. destruct (decide _) as [_|Hn]; [reflexivity | contradiction].
Qed.

(** A successful provisioning leaves an engine that answers, with the
    image in place. *)
Lemma ensure_docker_image_ready (w w1 : World) (msg : string) :
  _ensure_docker_image w = (Ok (true, msg), w1) ->
  from_env_error (engine w1) = None
  /\ images_get_error (engine w1) = None
  /\ SANDBOX_IMAGE ∈ local_images (engine w1)
  /\ ledger w1 = ledger w /\ workspace w1 = workspace w /\ clock w1 = clock w
  /\ tmp_files w1 = tmp_files w /\ tmp_write_error w1 = tmp_write_error w
  /\ uuid_supply w1 = uuid_supply w
  /\ launches (engine w1) = launches (engine w)
  /\ guest (engine w1) = guest (engine w)
  /\ run_error (engine w1) = run_error (engine w).
Proof.
  unfold _ensure_docker_image, docker_from_env, images_get, images_build, print.
  unfold_monad.
  destruct (from_env_error (engine w)) eqn:Henv; simpl; [discriminate|].
  destruct (images_get_error (engine w)) eqn:Hget; simpl; [discriminate|].
  destruct (decide _) as [Hin|Hout]; simpl.
  - intros [= <- <-]. tauto.
  - destruct (dockerfile_exists w); simpl; [|discriminate].
    destruct (build_error (engine w)) eqn:Hb; simpl; [discriminate|].
    intros [= <- <-]. simpl. repeat split; try assumption; try reflexivity.
    set_solver.
Qed.

(** C9. Provisioning is idempotent. With the image already there (and an
    engine that answers), [_ensure_docker_image] succeeds and changes
    nothing, so it builds nothing; after any successful call, a second call
    finds the image and leaves the world, hence the number of builds, as it
    is; with the image absent and no build definition file it returns a
    failure, never an exception, and builds nothing. *)
Theorem provisioning_idempotent (w : World) :
  (from_env_error (engine w) = None ->
   images_get_error (engine w) = None ->
   SANDBOX_IMAGE ∈ local_images (engine w) ->
   _ensure_docker_image w = (Ok (true, "Image exists"), w))
  /\ (forall msg w1,
        _ensure_docker_image w = (Ok (true, msg), w1) ->
        _ensure_docker_image w1 = (Ok (true, "Image exists"), w1)
        /\ builds (engine (snd (_ensure_docker_image w1))) = builds (engine w1))
  /\ (SANDBOX_IMAGE ∉ local_images (engine w) ->
      dockerfile_exists w = false ->
      exists msg,
        _ensure_docker_image w = (Ok (false, msg), w)
        /\ (from_env_error (engine w) = None ->
            images_get_error (engine w) = None ->
            msg = dockerfile_missing_message)).
Proof.
  split; [apply ensure_docker_image_exists|]. split.
  - intros msg w1 H1.
    destruct (ensure_docker_image_ready _ _ _ H1) as (Henv & Hget & Himg & _).
    rewrite (ensure_docker_image_exists w1 Henv Hget Himg). now split.
  - intros Hout Hfile.
    unfold _ensure_docker_image, docker_from_env, images_get. unfold_monad.
    destruct (from_env_error (engine w)) eqn:Henv; simpl.
    { eexists. split; [reflexivity | discriminate]. }
    destruct (images_get_error (engine w)) eqn:Hget; simpl.
    { eexists. split; [reflexivity | discriminate]. }
    destruct (decide _) as [Hin|_]; [contradiction|]. simpl.
    rewrite Hfile. simpl. eexists. split; reflexivity.
Qed.

(** ** Sandboxed Runner *)

Lemma mounted_script (cfg : Settings) (script_path : string) :
  mounted_at "/tmp/script.py" (cc_volumes (container_config cfg script_path))
  = Some script_path.
Proof. reflexivity. Qed.

(** With both streams asked for, the logs are every chunk, in order. *)
Lemma logs_both (chunks : list (stream * bytes)) :
  logs true true chunks = foldr bytes_app (Encoded "") (snd <$> chunks).
Proof.
  induction chunks as [|[[] b] rest IH]; simpl; [reflexivity | now rewrite IH ..].
Qed.

Lemma decode_utf8_result (b : bytes) (w : World) (r : Result string) (w' : World) :
  decode_utf8 b w = (r, w') ->
  w' = w /\ forall t, r = Ok t -> b = Encoded t.
Proof.
  destruct b as [t|]; unfold decode_utf8; unfold_monad; intros [= <- <-].
  - split; [reflexivity|]. now intros t' [= ->].
  - split; [reflexivity|]. discriminate.
Qed.

(** The [except ContainerError] branch changes nothing in the world; when it
    yields an outcome, the return code is the exit status of the container
    and [stderr] is not empty. *)
Lemma container_error_outcome_result
    (e : ContainerError) (w : World) (r : Result RunOutcome) (w' : World) :
  container_error_outcome e w = (r, w') ->
  w' = w
  /\ forall res, r = Ok res ->
       out_returncode res = exit_status e
       /\ (ce_message e <> "" -> out_stderr res <> "").
Proof.
  unfold container_error_outcome. unfold_monad.
  set (A := match ce_stdout e with NoAttr => _ | HasAttr _ => _ end).
  set (B := match ce_stderr e with Some _ => _ | None => _ end).
  assert (HA : forall w0, snd (A w0) = w0).
  { intros w0. subst A. destruct (ce_stdout e) as [|[[t|]|]]; simpl;
      try destruct (nonempty t); reflexivity. }
  assert (HB : forall w0, snd (B w0) = w0
               /\ forall a, fst (B w0) = Ok a -> ce_message e <> "" -> a <> "").
  { intros w0. subst B. destruct (ce_stderr e) as [[t|]|]; simpl;
      try destruct (nonempty t) eqn:Ht; simpl; (split; [reflexivity|]);
      try discriminate; intros a [= <-]; try tauto.
    intros _ ->. discriminate. }
  destruct (A w) as [[out|ex] w0] eqn:EA; pose proof (HA w) as HAw;
    rewrite EA in HAw; simpl in HAw; subst w0.
  - destruct (B w) as [[err|ex] w0] eqn:EB; destruct (HB w) as [HBw HBa];
      rewrite EB in HBw, HBa; simpl in HBw, HBa; subst w0; intros [= <- <-].
    + split; [reflexivity|]. intros res [= <-]. simpl. split; [reflexivity|].
      now apply HBa.
    + split; [reflexivity | discriminate].
  - intros [= <- <-]. split; [reflexivity | discriminate].
Qed.

(** An engine-level failure yields the synthetic outcome. *)
Lemma execute_in_docker_engine_failure
    (cfg : Settings) (code script_path msg : string) (w : World) :
  engine_failure w = Some msg ->
  exists w',
    _execute_in_docker cfg code script_path w
    = (Ok {| out_stdout := "";
             out_stderr := "Docker execution error: " +:+ msg;
             out_returncode := -1 |}, w')
    /\ ledger w' = ledger w /\ workspace w' = workspace w /\ clock w' = clock w
    /\ tmp_files w' = tmp_files w.
Proof.
  unfold engine_failure, _execute_in_docker, docker_from_env, containers_run.
  unfold_monad.
  destruct (from_env_error (engine w)) as [m|] eqn:Henv; simpl.
  { intros [= ->]. eexists. split; [reflexivity | tauto]. }
  destruct (run_error (engine w)) as [m|] eqn:Hrun; simpl.
  { intros [= ->]. eexists. split; [reflexivity | simpl; tauto]. }
  destruct (decide _) as [Hin|Hout]; [discriminate|]. intros [= <-].
  eexists. split; [reflexivity | simpl; tauto].
Qed.

(** The world after the container has run. *)
Lemma execute_in_docker_ran
    (cfg : Settings) (code script_path : string) (w : World) :
  engine_failure w = None ->
  let g := guest_run w script_path in
  let w' := snd (_execute_in_docker cfg code script_path w) in
  clock w' = clock w + g_duration g
  /\ workspace w' = Some (g_effect g (default ∅ (workspace w)))
  /\ ledger w' = ledger w /\ tmp_files w' = tmp_files w
  /\ launches (engine w') = S (launches (engine w))
  /\ (g_exit_status g = 0 ->
      fst (_execute_in_docker cfg code script_path w)
      = match logs true true (g_output g) with
        | Encoded t => Ok {| out_stdout := t; out_stderr := ""; out_returncode := 0 |}
        | Malformed => Raise (OtherException "UnicodeDecodeError"
                                "'utf-8' codec can't decode bytes")
        end)
  /\ (g_exit_status g <> 0 ->
      forall res, fst (_execute_in_docker cfg code script_path w) = Ok res ->
        out_returncode res = g_exit_status g /\ out_stderr res <> "").
Proof.
  unfold engine_failure, guest_run. intros Hfail.
  destruct (from_env_error (engine w)) as [m|] eqn:Henv; [discriminate|].
  destruct (run_error (engine w)) as [m|] eqn:Hrun; [discriminate|].
  destruct (decide _) as [Hin|Hout]; [|discriminate].
  unfold _execute_in_docker, docker_from_env, containers_run. unfold_monad.
  rewrite Henv, Hrun. simpl.
  destruct (decide _) as [_|Hout]; [|contradiction].
  set (g := guest (engine w) (tmp_files w !! script_path)).
  destruct (Z.eqb_spec (g_exit_status g) 0) as [Hz|Hnz]; simpl.
  - destruct (logs true true (g_output g)) as [t|]; simpl;
      split_and!; try reflexivity; intros; contradiction.
  - match goal with
    | |- context [container_error_outcome ?e ?w0] =>
        destruct (container_error_outcome e w0) as [r w1] eqn:Hce;
        destruct (container_error_outcome_result _ _ _ _ Hce) as [-> Hres]
    end.
    destruct r as [res'|ex]; simpl.
    + split_and!; try reflexivity; [intros; contradiction|].
      intros _ res [= <-]. destruct (Hres _ eq_refl) as [Hrc Herr].
      split; [exact Hrc | apply Herr; discriminate].
    + assert (Hex : is_DockerException ex = false).
      { revert Hce. unfold container_error_outcome, decode_utf8. unfold_monad.
        destruct (error_has_stdout (engine w)); simpl.
        - destruct (logs true false (g_output g)) as [t|]; simpl;
            try destruct (nonempty t); simpl;
            destruct (logs false true (g_output g)) as [t'|]; simpl;
            try destruct (nonempty t'); simpl; intros [= <-]; reflexivity.
        - intros [= <-]. reflexivity. }
      rewrite Hex. simpl.
      split_and!; try reflexivity; [intros; contradiction | intros _ res; discriminate].
Qed.

(** C5. On an engine-level failure [_execute_in_docker] does not raise: it
    returns the outcome with exit code -1, an empty stdout and the engine's
    error text in stderr. Conversely, as container exit statuses are never
    negative, an outcome with exit code -1 comes from an engine-level
    failure only: the [except ContainerError] branch always reports the
    exit status of the container. *)
Theorem engine_failure_outcome
    (cfg : Settings) (code script_path : string) (w : World) :
  0 <= g_exit_status (guest_run w script_path) ->
  (forall msg, engine_failure w = Some msg ->
     exists w',
       _execute_in_docker cfg code script_path w
       = (Ok {| out_stdout := "";
                out_stderr := "Docker execution error: " +:+ msg;
                out_returncode := -1 |}, w'))
  /\ (forall res w',
        _execute_in_docker cfg code script_path w = (Ok res, w') ->
        out_returncode res = -1 ->
        exists msg, engine_failure w = Some msg)
  /\ (forall e w0 res w0',
        container_error_outcome e w0 = (Ok res, w0') ->
        out_returncode res = exit_status e).
Proof.
  intros Hstatus. split_and!.
  - intros msg Hfail.
    destruct (execute_in_docker_engine_failure cfg code script_path msg w Hfail)
      as (w' & Hrun & _).
    now exists w'.
  - intros res w' Hrun Hrc.
    destruct (engine_failure w) as [msg|] eqn:Hfail; [now exists msg|].
    exfalso.
    destruct (execute_in_docker_ran cfg code script_path w Hfail)
      as (_ & _ & _ & _ & _ & Hzero & Hnonzero).
    rewrite Hrun in Hzero, Hnonzero. simpl in Hzero, Hnonzero.
    destruct (Z.eq_dec (g_exit_status (guest_run w script_path)) 0) as [Hz|Hnz].
    + specialize (Hzero Hz).
      destruct (logs true true _); [|discriminate].
      injection Hzero as Hres. subst res. simpl in Hrc. discriminate.
    + destruct (Hnonzero Hnz res eq_refl) as [Heq _]. lia.
  - intros e w0 res w0' Hce.
    destruct (container_error_outcome_result _ _ _ _ Hce) as [_ Hres].
    now destruct (Hres res eq_refl).
Qed.

(** C10. When the container exits with status 0, the outcome has an empty
    stderr and return code 0, and its stdout is everything the container
    wrote, on stdout and on stderr, in order; such an outcome is returned
    whenever that output decodes. A non-empty stderr therefore only comes
    with a non-zero exit status or an engine-level failure. *)
Theorem exit_zero_outcome
    (cfg : Settings) (code script_path : string) (w : World) :
  let g := guest_run w script_path in
  let all_output := foldr bytes_app (Encoded "") (snd <$> g_output g) in
  (engine_failure w = None -> g_exit_status g = 0 ->
     (forall res w',
        _execute_in_docker cfg code script_path w = (Ok res, w') ->
        out_stderr res = "" /\ out_returncode res = 0
        /\ all_output = Encoded (out_stdout res))
     /\ (forall t, all_output = Encoded t ->
           exists w',
             _execute_in_docker cfg code script_path w
             = (Ok {| out_stdout := t; out_stderr := ""; out_returncode := 0 |}, w')))
  /\ (forall res w',
        _execute_in_docker cfg code script_path w = (Ok res, w') ->
        out_stderr res <> "" ->
        engine_failure w <> None \/ g_exit_status g <> 0).
Proof.
  intros g all_output. subst all_output. rewrite <- logs_both. split.
  - intros Hfail Hz.
    destruct (execute_in_docker_ran cfg code script_path w Hfail)
      as (_ & _ & _ & _ & _ & Hzero & _).
    specialize (Hzero Hz). fold g in Hzero. split.
    + intros res w' Hrun. rewrite Hrun in Hzero. simpl in Hzero.
      destruct (logs true true (g_output g)) as [t|]; [|discriminate].
      injection Hzero as Hres. subst res. simpl. auto.
    + intros t Ht. rewrite Ht in Hzero.
      destruct (_execute_in_docker cfg code script_path w) as [r w'].
      simpl in Hzero. subst r. now exists w'.
  - intros res w' Hrun Herr.
    destruct (engine_failure w) as [msg|] eqn:Hfail; [left; discriminate|].
    right. intros Hz.
    destruct (execute_in_docker_ran cfg code script_path w Hfail)
      as (_ & _ & _ & _ & _ & Hzero & _).
    specialize (Hzero Hz). rewrite Hrun in Hzero. simpl in Hzero.
    destruct (logs true true _); [|discriminate].
    injection Hzero as Hres. subst res. now apply Herr.
Qed.

(** C1 (the code does not do this). Whatever [SANDBOX_TIMEOUT] is set to,
    a script that sleeps for 60 seconds runs to its end: the call lasts the
    60 seconds, nothing is terminated, and the run is reported and recorded
    as a success with exit code 0. *)
Theorem timeout_is_not_enforced (timeout : Z) :
  let cfg := {| SANDBOX_TIMEOUT := timeout;
                SANDBOX_MAX_OUTPUT := 5000; SANDBOX_MEMORY_LIMIT := "512m";
                SANDBOX_CPU_QUOTA := 50000; SANDBOX_NETWORK_DISABLED := true;
                WORKSPACE_DIR := "/app/workspace" |} in
  let w := fresh_world (ready_engine sleeper) [] in
  let run := run_python_code cfg sleeper_code "session" w in
  fst run = Ok (join nl [ success_banner;
                          execution_time_line 6000;
                          results_stored_line (Some 1%nat) ])
  /\ clock (snd run) - clock w = 6000
  /\ (ex_returncode <$> code_executions (ledger (snd run))) = [0]
  /\ (ex_execution_time <$> code_executions (ledger (snd run))) = [6000].
Proof. vm_compute. repeat split. Qed.

(** ** Execution Ledger *)

Lemma same_host_refl (w : World) : same_host w w.
Proof. unfold same_host. tauto. Qed.

Lemma same_host_trans (w1 w2 w3 : World) :
  same_host w1 w2 -> same_host w2 w3 -> same_host w1 w3.
Proof. unfold same_host. intuition congruence. Qed.

Lemma grows_by_nil (l l' : Ledger) :
  journal l' = journal l -> code_executions l' = code_executions l ->
  workspace_files l' = workspace_files l -> grows_by l l' [].
Proof. unfold grows_by. simpl. intros -> -> ->. now rewrite !app_nil_r. Qed.

Lemma executions_in_app (a b : list Row) :
  executions_in (a ++ b) = executions_in a ++ executions_in b.
Proof. unfold executions_in. apply omap_app. Qed.

Lemma files_in_app (a b : list Row) : files_in (a ++ b) = files_in a ++ files_in b.
Proof. unfold files_in. apply omap_app. Qed.

Lemma grows_by_trans (l1 l2 l3 : Ledger) (t1 t2 : list (list Row)) :
  grows_by l1 l2 t1 -> grows_by l2 l3 t2 -> grows_by l1 l3 (t1 ++ t2).
Proof.
  unfold grows_by. intros (J1 & E1 & F1) (J2 & E2 & F2).
  rewrite J2, J1, E2, E1, F2, F1, concat_app, executions_in_app, files_in_app.
  now rewrite !app_assoc.
Qed.

(** [_save_file_metadata] never raises. It leaves the ledger's tables as
    they are, or commits one transaction that holds the record of
    [filename] alone; it does the latter when the file is in the workspace
    and no commit fails. *)
Lemma save_file_metadata_result
    (session_id filename : string) (execution_id : option nat) (w : World) :
  exists w',
    _save_file_metadata session_id filename execution_id w = (Ok tt, w')
    /\ same_host w w'
    /\ (grows_by (ledger w) (ledger w') []
        \/ exists r,
             grows_by (ledger w) (ledger w') [file_transaction r]
             /\ wf_filename r = filename /\ wf_session_id r = session_id
             /\ wf_execution_id r = execution_id
             /\ wf_file_type r = file_type_of filename)
    /\ (fault_free (ledger w) ->
        fault_free (ledger w')
        /\ (filename ∈ listing w ->
            exists r,
              grows_by (ledger w) (ledger w') [file_transaction r]
              /\ wf_filename r = filename /\ wf_session_id r = session_id
              /\ wf_execution_id r = execution_id
              /\ wf_file_type r = file_type_of filename)).
Proof.
  unfold _save_file_metadata, with_get_db, WorkspaceRepository.save_file_metadata,
    session_commit, session_add, SessionLocal, print, listing, fault_free.
  unfold_monad.
  destruct (workspace w) as [files|] eqn:Hws; simpl.
  2:{ exists w. split; [reflexivity|]. split; [apply same_host_refl|]. split.
      - left. now apply grows_by_nil.
      - intros Hff. split; [assumption|]. intros Hin. set_solver. }
  destruct (files !! filename) as [size|] eqn:Hfile; simpl.
  2:{ exists w. split; [reflexivity|]. split; [apply same_host_refl|]. split.
      - left. now apply grows_by_nil.
      - intros Hff. split; [assumption|]. intros Hin.
        apply elem_of_dom in Hin as [x Hx]. congruence. }
  destruct (commit_faults (ledger w)) as [|[] faults] eqn:Hfaults; simpl.
  - eexists. split; [reflexivity|]. split; [unfold same_host; simpl; tauto|]. split.
    + right. eexists. split; [one_file_row|]. simpl. tauto.
    + intros _. split; [constructor|]. intros _.
      eexists. split; [one_file_row|]. simpl. tauto.
  - eexists. split; [reflexivity|]. split; [unfold same_host; simpl; tauto|]. split.
    + left. now apply grows_by_nil.
    + intros Hff. inversion Hff; discriminate.
  - destruct faults as [|[] faults']; simpl.
    + eexists. split; [reflexivity|]. split; [unfold same_host; simpl; tauto|]. split.
      * right. eexists. split; [one_file_row|]. simpl. tauto.
      * intros _. split; [constructor|]. intros _.
        eexists. split; [one_file_row|]. simpl. tauto.
    + eexists. split; [reflexivity|]. split; [unfold same_host; simpl; tauto|]. split.
      * right. eexists. split; [one_file_row|]. simpl. tauto.
      * intros Hff. inversion Hff as [|? ? _ Hff']. inversion Hff'; discriminate.
    + eexists. split; [reflexivity|]. split; [unfold same_host; simpl; tauto|]. split.
      * right. eexists. split; [one_file_row|]. simpl. tauto.
      * intros Hff. inversion Hff as [|? ? _ Hff']. inversion Hff' as [|? ? _ Hff''].
        split; [exact Hff''|]. intros _.
        eexists. split; [one_file_row|]. simpl. tauto.
Qed.

Lemma same_host_listing (w w' : World) : same_host w w' -> listing w' = listing w.
Proof. unfold same_host, listing. intros (_ & _ & _ & -> & _). reflexivity. Qed.

(** The loop over the new files: the transactions it commits hold one file
    record each, for a sub-sequence of the files; for all of them when no
    commit fails and the files are in the workspace. *)
Lemma save_file_metadata_loop
    (session_id : string) (execution_id : option nat) (new_files : list string)
    (w : World) :
  exists w' rows,
    for_each new_files
      (fun filename => _save_file_metadata session_id filename execution_id) w
    = (Ok tt, w')
    /\ same_host w w'
    /\ grows_by (ledger w) (ledger w') (file_transaction <$> rows)
    /\ Forall (fun r => wf_session_id r = session_id
                        /\ wf_execution_id r = execution_id
                        /\ wf_file_type r = file_type_of (wf_filename r)) rows
    /\ (wf_filename <$> rows) `sublist_of` new_files
    /\ (fault_free (ledger w) ->
        fault_free (ledger w')
        /\ ((forall f, f ∈ new_files -> f ∈ listing w) ->
            wf_filename <$> rows = new_files)).
Proof.
  revert w. induction new_files as [|f rest IH]; intros w.
  - exists w, []. split; [reflexivity|]. split; [apply same_host_refl|].
    split; [now apply grows_by_nil|]. split; [constructor|].
    split; [constructor|]. intros Hff. split; [assumption | reflexivity].
  - destruct (save_file_metadata_result session_id f execution_id w)
      as (w1 & Hrun1 & Hhost1 & Hstep & Hfree1).
    destruct (IH w1) as (w2 & rows & Hrun2 & Hhost2 & Hgrow2 & Hall & Hsub & Hfree2).
    assert (Hrun : for_each (f :: rest)
              (fun filename => _save_file_metadata session_id filename execution_id) w
            = (Ok tt, w2)).
    { simpl. unfold bind. now rewrite Hrun1. }
    destruct Hstep as [Hnone | (r & Hone & Hname & Hsid & Heid & Htype)].
    + exists w2, rows. split; [exact Hrun|].
      split; [eapply same_host_trans; eassumption|].
      split; [exact (grows_by_trans _ _ _ [] _ Hnone Hgrow2)|].
      split; [assumption|]. split; [now apply sublist_cons|].
      intros Hff. destruct (Hfree1 Hff) as [Hff1 Hexists].
      destruct (Hfree2 Hff1) as [Hff2 Hnames]. split; [assumption|].
      intros Hin.
      destruct Hexists as (r & Hone & Hname & _); [apply Hin; left|].
      (* the ledger cannot both stay as it is and grow by one transaction *)
      destruct Hnone as (J0 & _), Hone as (J1 & _). rewrite J0 in J1.
      apply (f_equal length) in J1. rewrite !length_app in J1. simpl in J1. lia.
    + exists w2, (r :: rows). split; [exact Hrun|].
      split; [eapply same_host_trans; eassumption|].
      split; [exact (grows_by_trans _ _ _ [file_transaction r] _ Hone Hgrow2)|].
      split; [constructor; [rewrite Hname; auto | assumption]|].
      split; [simpl; rewrite Hname; now apply sublist_skip|].
      intros Hff. destruct (Hfree1 Hff) as [Hff1 _].
      destruct (Hfree2 Hff1) as [Hff2 Hnames]. split; [assumption|].
      intros Hin. simpl. rewrite Hname. f_equal. apply Hnames.
      intros f' Hf'. rewrite (same_host_listing _ _ Hhost1). apply Hin. now right.
Qed.

(** The "Save to database" block never raises. Either the commit of the
    execution record fails, nothing is written and [execution_id] stays
    [None]; or the execution record is committed in a transaction of its
    own, followed by one transaction per file record saved. *)
Lemma save_to_database_result
    (session_id code stdout stderr : string) (returncode : Z)
    (new_files : list string) (execution_time : Z) (w : World) :
  exists execution_id w',
    save_to_database session_id code stdout stderr returncode new_files
      execution_time w = (Ok execution_id, w')
    /\ same_host w w'
    /\ ((execution_id = None
         /\ head (commit_faults (ledger w)) = Some true
         /\ grows_by (ledger w) (ledger w') []
         /\ exists e, console w' = console w ++ [save_warning e])
        \/ (exists e rows,
              execution_id = Some (ex_id e)
              /\ head (commit_faults (ledger w)) <> Some true
              /\ grows_by (ledger w) (ledger w')
                   ([ExecutionRow e] :: (file_transaction <$> rows))
              /\ (ex_session_id e = session_id /\ ex_code e = code
                  /\ ex_stdout e = stdout /\ ex_stderr e = stderr
                  /\ ex_returncode e = returncode
                  /\ ex_created_files e = new_files
                  /\ ex_execution_time e = execution_time)
              /\ Forall (fun r => wf_session_id r = session_id
                                  /\ wf_execution_id r = Some (ex_id e)
                                  /\ wf_file_type r = file_type_of (wf_filename r))
                   rows
              /\ (wf_filename <$> rows) `sublist_of` new_files
              /\ (fault_free (ledger w) ->
                  (forall f, f ∈ new_files -> f ∈ listing w) ->
                  wf_filename <$> rows = new_files))).
Proof.
  unfold save_to_database, ExecutionRepository.save_execution, session_add,
    SessionLocal.
  unfold mbind, M_bind, bind, attempt.
  destruct (commit_faults (ledger w)) as [|fault faults] eqn:Hfaults.
  all: unfold session_commit at 1; rewrite Hfaults; simpl.
  all: try destruct fault; simpl.
  2:{ (* the commit of the execution record fails *)
      unfold print, modify_world, mret, M_ret, ret. simpl.
      eexists _, _. split; [reflexivity|].
      split; [unfold same_host; simpl; tauto|]. left.
      split; [reflexivity|]. split; [reflexivity|].
      split; [now apply grows_by_nil|].
      now exists (OtherException "OperationalError" "database is unavailable"). }
  all: match goal with
       | |- context [ExecutionRow ?e] => set (e' := e)
       end.
  all: change (next_id (ex_id <$> code_executions (ledger w))) with (ex_id e').
  all: match goal with
       | |- context [try_except _ _ _ ?w1] => set (w1' := w1)
       end.
  all: destruct (save_file_metadata_loop session_id (Some (ex_id e')) new_files w1')
         as (w2 & rows & Hloop & Hhost & Hgrow & Hall & Hsub & Hfree).
  all: unfold try_except, mbind, M_bind, bind; rewrite Hloop.
  all: assert (Hfirst : grows_by (ledger w) (ledger w1') [[ExecutionRow e']])
         by (unfold grows_by; subst w1'; simpl; now rewrite !app_nil_r).
  all: assert (Hhost1 : same_host w w1') by (unfold same_host; subst w1'; simpl; tauto).
  all: assert (Hlist : listing w1' = listing w) by now apply same_host_listing.
  all: pose proof (grows_by_trans _ _ _ _ _ Hfirst Hgrow) as Hboth; simpl in Hboth.
  all: unfold session_commit;
       destruct (commit_faults (ledger w2)) as [|[] faults2] eqn:Hfaults2; simpl;
       unfold print, modify_world, mret, M_ret, ret, Exception; simpl.
  all: eexists _, _; (split; [reflexivity|]).
  all: split; [eapply same_host_trans; [exact Hhost1|];
               eapply same_host_trans; [exact Hhost|]; unfold same_host; simpl; tauto|].
  all: right; exists e', rows.
  all: split; [reflexivity|]; split; [simpl; congruence|].
  all: split; [destruct Hboth as (J & E & F); unfold grows_by; simpl;
               rewrite ?app_nil_r; auto|].
  all: split; [subst e'; simpl; tauto|].
  all: split; [assumption|]; split; [assumption|].
  all: intros Hff Hin; apply Hfree;
       [subst w1'; unfold fault_free in *; simpl; rewrite Hfaults in Hff;
        simpl; try (inversion Hff; assumption); constructor
       | intros f Hf; rewrite Hlist; now apply Hin].
Qed.

(** ** End-to-end orchestration *)

(** After the script has run, the rest of the call saves the run and builds
    the response from what was saved. *)
Lemma record_and_respond_result
    (cfg : Settings) (code session_id : string) (start_time : Z)
    (files_before : gset string) (result : RunOutcome) (w : World)
    (execution_id : option nat) (w' : World) :
  save_to_database session_id code (strip (out_stdout result))
    (strip (out_stderr result)) (out_returncode result)
    (new_files_of files_before (listing w)) (clock w - start_time) w
  = (Ok execution_id, w') ->
  record_and_respond cfg code session_id start_time files_before result w
  = (Ok (join nl (response_parts cfg (out_returncode result)
                    (strip (out_stdout result)) (strip (out_stderr result))
                    (new_files_of files_before (listing w))
                    (clock w - start_time) execution_id)), w').
Proof.
  intros Hsave. unfold record_and_respond, workspace_listing. unfold_monad.
  now rewrite Hsave.
Qed.

Lemma cleanup_script_host (script_path : string) (w : World) :
  exists w', cleanup_script script_path w = (Ok tt, w')
    /\ ledger w' = ledger w /\ console w' = console w
    /\ workspace w' = workspace w /\ clock w' = clock w /\ engine w' = engine w
    /\ tmp_files w' !! script_path = None.
Proof.
  unfold cleanup_script. destruct (tmp_files w !! script_path) eqn:H.
  - eexists. split; [reflexivity|]. simpl. split_and!; try reflexivity.
    apply lookup_delete_eq.
  - exists w. tauto.
Qed.

(** The whole call, once the script has run. *)
Lemma run_python_code_after_script
    (cfg : Settings) (code session_id : string) (w : World)
    (files_before : gset string) (script_path : string)
    (result : RunOutcome) (w4 : World) (summary : string) (w5 : World) :
  script_ran cfg code w files_before script_path result w4 ->
  record_and_respond cfg code session_id (clock w) files_before result w4
  = (Ok summary, w5) ->
  run_python_code cfg code session_id w
  = (Ok summary, snd (cleanup_script script_path w5)).
Proof.
  intros (Hsafe & msg & w1 & sid & w2 & w3 & Hprov & -> & Huuid & -> & Hwrite & Hexec) Hrest.
  unfold run_python_code.
  destruct (_validate_code_safety code) as [is_safe error_msg]. simpl in Hsafe.
  subst is_safe. unfold_monad. simpl. rewrite Hprov. simpl.
  unfold workspace_listing. rewrite Huuid, Hwrite, Hexec, Hrest.
  destruct (cleanup_script_host (script_path_of sid) w5) as (w6 & Hclean & _).
  rewrite Hclean. reflexivity.
Qed.

(** Nothing touches the ledger or the console before the script has run. *)
Lemma script_ran_ledger
    (cfg : Settings) (code : string) (w : World) (files_before : gset string)
    (script_path : string) (result : RunOutcome) (w4 : World) :
  script_ran cfg code w files_before script_path result w4 ->
  ledger w4 = ledger w.
Proof.
  intros (_ & msg & w1 & sid & w2 & w3 & Hprov & _ & Huuid & -> & Hwrite & Hexec).
  destruct (ensure_docker_image_ready _ _ _ Hprov) as (_ & _ & _ & L1 & _).
  assert (L2 : ledger w2 = ledger w1).
  { revert Huuid. unfold uuid4_hex8. destruct (uuid_supply w1); intros [= _ <-]; reflexivity. }
  assert (L3 : ledger w3 = ledger w2).
  { revert Hwrite. unfold write_text. destruct (tmp_write_error w2); [discriminate|].
    intros [= <-]. reflexivity. }
  assert (L4 : ledger w4 = ledger w3).
  { destruct (engine_failure w3) as [m|] eqn:Hfail.
    - destruct (execute_in_docker_engine_failure cfg code (script_path_of sid) m w3 Hfail)
        as (w' & Hrun & L & _). rewrite Hexec in Hrun. now injection Hrun as _ <-.
    - destruct (execute_in_docker_ran cfg code (script_path_of sid) w3 Hfail)
        as (_ & _ & L & _). now rewrite Hexec in L. }
  congruence.
Qed.

(** Every file of the diff is in the second snapshot. *)
Lemma new_files_of_spec (files_before files_after : gset string) (f : string) :
  f ∈ new_files_of files_before files_after <-> f ∈ files_after /\ f ∉ files_before.
Proof. unfold new_files_of. rewrite elem_of_elements. set_solver. Qed.

(** A completed run: the response is built from the stripped outputs, the
    diff of the workspace, the elapsed time and the id of the saved
    execution; the ledger has grown by the transactions of
    [save_to_database] and by nothing else. *)
Lemma completed_run
    (cfg : Settings) (code session_id : string) (w : World)
    (files_before : gset string) (script_path : string)
    (result : RunOutcome) (w4 : World) :
  script_ran cfg code w files_before script_path result w4 ->
  let stdout := strip (out_stdout result) in
  let stderr := strip (out_stderr result) in
  let returncode := out_returncode result in
  let new_files := new_files_of files_before (listing w4) in
  let execution_time := clock w4 - clock w in
  exists execution_id w',
    run_python_code cfg code session_id w
    = (Ok (join nl (response_parts cfg returncode stdout stderr new_files
                      execution_time execution_id)), w')
    /\ listing w' = listing w4
    /\ ((execution_id = None
         /\ head (commit_faults (ledger w)) = Some true
         /\ grows_by (ledger w) (ledger w') []
         /\ exists e, console w' = console w4 ++ [save_warning e])
        \/ (exists e rows,
              execution_id = Some (ex_id e)
              /\ head (commit_faults (ledger w)) <> Some true
              /\ grows_by (ledger w) (ledger w')
                   ([ExecutionRow e] :: (file_transaction <$> rows))
              /\ (ex_session_id e = session_id /\ ex_code e = code
                  /\ ex_stdout e = stdout /\ ex_stderr e = stderr
                  /\ ex_returncode e = returncode
                  /\ ex_created_files e = new_files
                  /\ ex_execution_time e = execution_time)
              /\ Forall (fun r => wf_session_id r = session_id
                                  /\ wf_execution_id r = Some (ex_id e)
                                  /\ wf_file_type r = file_type_of (wf_filename r))
                   rows
              /\ (wf_filename <$> rows) `sublist_of` new_files
              /\ (fault_free (ledger w) -> wf_filename <$> rows = new_files))).
Proof.
  intros Hran stdout stderr returncode new_files execution_time.
  pose proof (script_ran_ledger _ _ _ _ _ _ _ Hran) as Hledger.
  destruct (save_to_database_result session_id code stdout stderr returncode
              new_files execution_time w4) as (eid & w5 & Hsave & Hhost & Hcases).
  pose proof (record_and_respond_result cfg code session_id (clock w) files_before
                result w4 eid w5 Hsave) as Hrest.
  pose proof (run_python_code_after_script _ _ session_id _ _ _ _ _ _ _ Hran Hrest)
    as Hrun.
  destruct (cleanup_script_host script_path w5)
    as (w6 & Hclean & L6 & C6 & W6 & _).
  rewrite Hclean in Hrun. simpl in Hrun.
  exists eid, w6. split; [exact Hrun|]. split.
  { unfold listing. rewrite W6. now destruct Hhost as (_ & _ & _ & -> & _). }
  rewrite L6, C6, <- Hledger.
  destruct Hcases as [(H1 & H2 & H3 & H4) | (e & rows & H1 & H2 & H3 & H4 & H5 & H6 & H7)].
  - left. tauto.
  - right. exists e, rows.
    split; [assumption|]. split; [assumption|]. split; [assumption|].
    split; [assumption|]. split; [assumption|]. split; [assumption|].
    intros Hff. apply H7; [assumption|].
    intros f Hf. now apply new_files_of_spec in Hf.
Qed.




Lemma executions_in_run (e : CodeExecution) (rows : list WorkspaceFileMetadata) :
  executions_in (concat ([ExecutionRow e] :: (file_transaction <$> rows))) = [e].
Proof.
  unfold executions_in. simpl. f_equal.
  induction rows as [|r rows IH]; [reflexivity | exact IH].
Qed.


(** The execution records a completed run leaves in the ledger are those
    that were there and, when its write succeeded, the record of the run. *)
Lemma completed_run_executions
    (cfg : Settings) (code session_id : string) (w : World)
    (files_before : gset string) (script_path : string)
    (result : RunOutcome) (w4 : World) :
  script_ran cfg code w files_before script_path result w4 ->
  let w' := snd (run_python_code cfg code session_id w) in
  listing w' = listing w4
  /\ forall e, e ∈ code_executions (ledger w') ->
       e ∈ code_executions (ledger w)
       \/ (ex_stdout e = strip (out_stdout result)
           /\ ex_stderr e = strip (out_stderr result)
           /\ ex_returncode e = out_returncode result
           /\ ex_created_files e = new_files_of files_before (listing w4)).
Proof.
  intros Hran.
  destruct (completed_run cfg code session_id w files_before script_path result w4 Hran)
    as (eid & w' & Hrun & Hlist & Hcases).
  rewrite Hrun. simpl. split; [exact Hlist|]. intros e He.
  destruct Hcases as [(_ & _ & (_ & Hex & _) & _) | (e' & rows & _ & _ & (_ & Hex & _) & Hfields & _)].
  - left. simpl in Hex. rewrite app_nil_r in Hex. now rewrite <- Hex.
  - rewrite Hex, executions_in_run in He.
    apply elem_of_app in He as [He|He]; [now left|].
    apply list_elem_of_singleton in He as ->. right. tauto.
Qed.

(** C8. [created_files] is the set difference of the two snapshots: a name
    is in it exactly when it is in [files_after] and not in [files_before],
    and no name is in it twice. So the created files a run records are
    among the names the workspace holds after the run. *)
Theorem created_files_is_set_difference (files_before files_after : gset string) :
  (forall f, f ∈ new_files_of files_before files_after
             <-> f ∈ files_after /\ f ∉ files_before)
  /\ NoDup (new_files_of files_before files_after)
  /\ (forall cfg code session_id w script_path result w4,
        script_ran cfg code w files_before script_path result w4 ->
        let w' := snd (run_python_code cfg code session_id w) in
        forall e, e ∈ code_executions (ledger w') ->
          e ∈ code_executions (ledger w)
          \/ (ex_created_files e = new_files_of files_before (listing w')
              /\ forall f, f ∈ ex_created_files e -> f ∈ listing w')).
Proof.
  split; [apply new_files_of_spec|]. split; [apply NoDup_elements|].
  intros cfg code session_id w script_path result w4 Hran w' e He.
  destruct (completed_run_executions cfg code session_id w files_before script_path
              result w4 Hran) as [Hlist Hexec].
  fold w' in Hlist, Hexec. destruct (Hexec e He) as [Hold | (_ & _ & _ & Hfiles)].
  - now left.
  - right. rewrite Hlist. split; [exact Hfiles|].
    intros f Hf. rewrite Hfiles in Hf. now apply new_files_of_spec in Hf.
Qed.



(** ** The properties at concrete inputs *)





Lemma provisioning_idempotent_witness :
  let w := fresh_world (ready_engine sleeper) [] in
  (from_env_error (engine w) = None /\ images_get_error (engine w) = None
   /\ SANDBOX_IMAGE ∈ local_images (engine w)
   /\ _ensure_docker_image w = (Ok (true, "Image exists"), w))
  /\ ((SANDBOX_IMAGE ∉ local_images (engine bare_world))
      /\ dockerfile_exists bare_world = false
      /\ _ensure_docker_image bare_world
         = (Ok (false, dockerfile_missing_message), bare_world)).
Proof.
  intros w.
  assert (Himg : SANDBOX_IMAGE ∈ local_images (engine w)) by (simpl; set_solver).
  assert (Hno : SANDBOX_IMAGE ∉ local_images (engine bare_world)) by (simpl; set_solver).
  split.
  - split; [reflexivity|]. split; [reflexivity|]. split; [exact Himg|].
    exact (proj1 (provisioning_idempotent w) eq_refl eq_refl Himg).
  - split; [exact Hno|]. split; [reflexivity|].
    destruct (proj2 (proj2 (provisioning_idempotent bare_world)) Hno eq_refl)
      as (msg & Hrun & Hmsg).
    rewrite Hrun, (Hmsg eq_refl eq_refl). reflexivity.
Defined.

Lemma engine_failure_outcome_witness :
  let w := fresh_world unreachable_engine [] in
  0 <= g_exit_status (guest_run w fresh_script_path)
  /\ engine_failure w = Some "Error while fetching server API version"
  /\ exists w',
       _execute_in_docker default_settings sleeper_code fresh_script_path w
       = (Ok {| out_stdout := "";
                out_stderr := "Docker execution error: "
                              +:+ "Error while fetching server API version";
                out_returncode := -1 |}, w').
Proof.
  intros w.
  assert (H : 0 <= g_exit_status (guest_run w fresh_script_path)) by (simpl; lia).
  split; [exact H|]. split; [reflexivity|].
  exact (proj1 (engine_failure_outcome default_settings sleeper_code
                  fresh_script_path w H) _ eq_refl).
Defined.

Lemma exit_zero_outcome_witness :
  let w := fresh_world (ready_engine (printer 3 2)) [] in
  engine_failure w = None
  /\ g_exit_status (guest_run w fresh_script_path) = 0
  /\ exists w',
       _execute_in_docker default_settings echo_code fresh_script_path w
       = (Ok {| out_stdout := "xxx" +:+ nl +:+ "yy"; out_stderr := "";
                out_returncode := 0 |}, w').
Proof.
  intros w.
  assert (Hok : engine_failure w = None) by (vm_compute; reflexivity).
  assert (Hz : g_exit_status (guest_run w fresh_script_path) = 0) by reflexivity.
  split; [exact Hok|]. split; [exact Hz|].
  exact (proj2 (proj1 (exit_zero_outcome default_settings echo_code
                         fresh_script_path w) Hok Hz) _ eq_refl).
Defined.




Lemma created_files_is_set_difference_witness :
  let w := fresh_world (ready_engine writer) [] in
  let w4 := after_script writer writer_code [] in
  let result := {| out_stdout := "done" +:+ nl; out_stderr := "";
                   out_returncode := 0 |} in
  let w' := snd (run_python_code default_settings writer_code "session" w) in
  script_ran default_settings writer_code w ∅ fresh_script_path result w4
  /\ forall e, e ∈ code_executions (ledger w') ->
       e ∈ code_executions (ledger w)
       \/ (ex_created_files e = new_files_of ∅ (listing w')
           /\ forall f, f ∈ ex_created_files e -> f ∈ listing w').
Proof.
  intros w w4 result w'.
  assert (Hran : script_ran default_settings writer_code w ∅ fresh_script_path result w4)
    by run_script w writer_code.
  split; [exact Hran|].
  exact (proj2 (proj2 (created_files_is_set_difference ∅ ∅)) default_settings
           writer_code "session" w fresh_script_path result w4 Hran).
Defined.

(** * Further properties of the code *)

(** ** Provisioner and Runner: what they touch *)

(** [_ensure_docker_image] never raises. It leaves everything but the
    engine and the console as it is, launches nothing, builds at most once,
    and answers [True] only with the image in place. *)
Lemma ensure_docker_image_total (w : World) :
  exists ok msg w',
    _ensure_docker_image w = (Ok (ok, msg), w')
    /\ ledger w' = ledger w /\ workspace w' = workspace w /\ clock w' = clock w
    /\ tmp_files w' = tmp_files w /\ tmp_write_error w' = tmp_write_error w
    /\ uuid_supply w' = uuid_supply w
    /\ launches (engine w') = launches (engine w)
    /\ (builds (engine w') <= S (builds (engine w)))%nat
    /\ (builds (engine w) <= builds (engine w'))%nat
    /\ (ok = true -> SANDBOX_IMAGE ∈ local_images (engine w'))
    /\ (ok = false -> local_images (engine w') = local_images (engine w)).
Proof.
  unfold _ensure_docker_image, docker_from_env, images_get, images_build, print.
  unfold_monad.
  destruct (from_env_error (engine w)) eqn:Henv; simpl;
    [|destruct (images_get_error (engine w)) eqn:Hget; simpl;
      [|destruct (decide _) as [Hin|Hout]; simpl;
        [|destruct (dockerfile_exists w); simpl;
          [destruct (build_error (engine w)) eqn:Hb; simpl|]]]].
  all: eexists _, _, _; (split; [reflexivity|]); simpl.
  all: split_and!; try reflexivity; try lia; try discriminate.
  all: try (intros _; assumption); try (intros _; set_solver).
Qed.

(** [_execute_in_docker] leaves the ledger, the temporary files, the
    console, the images and the build counter as they are, and calls
    [containers.run] at most once. *)
Lemma execute_in_docker_frame
    (cfg : Settings) (code script_path : string) (w : World) :
  let w' := snd (_execute_in_docker cfg code script_path w) in
  ledger w' = ledger w /\ tmp_files w' = tmp_files w /\ console w' = console w
  /\ tmp_write_error w' = tmp_write_error w /\ uuid_supply w' = uuid_supply w
  /\ builds (engine w') = builds (engine w)
  /\ local_images (engine w') = local_images (engine w)
  /\ launches (engine w')
     = match from_env_error (engine w) with
       | Some _ => launches (engine w)
       | None => S (launches (engine w))
       end.
Proof.
  unfold _execute_in_docker, docker_from_env, containers_run. unfold_monad.
  destruct (from_env_error (engine w)) eqn:Henv; simpl; [tauto|].
  destruct (run_error (engine w)) eqn:Hrun; simpl; [tauto|].
  destruct (decide _) as [Hin|Hout]; simpl; [|tauto].
  set (g := guest (engine w) _).
  destruct (g_exit_status g =? 0); simpl.
  - destruct (logs true true (g_output g)); simpl; tauto.
  - match goal with
    | |- context [container_error_outcome ?e ?w0] =>
        destruct (container_error_outcome e w0) as [r w1] eqn:Hce;
        destruct (container_error_outcome_result _ _ _ _ Hce) as [-> _]
    end.
    destruct r as [res|ex]; simpl; [tauto|].
    destruct (is_DockerException ex); simpl; tauto.
Qed.

(** ** The ways a call of [run_python_code] can go *)

(** A call is rejected by the prefilter, or stopped by the provisioner, or
    ends in the "Execution error" message because writing or running the
    script raised, or gets as far as running the script. *)
Lemma run_python_code_cases (cfg : Settings) (code session_id : string) (w : World) :
  (fst (_validate_code_safety code) = false
   /\ run_python_code cfg code session_id w = (Ok (snd (_validate_code_safety code)), w))
  \/ (fst (_validate_code_safety code) = true
      /\ exists msg w1,
           _ensure_docker_image w = (Ok (false, msg), w1)
           /\ run_python_code cfg code session_id w
              = (Ok (msg +:+ provisioning_hint), w1))
  \/ (fst (_validate_code_safety code) = true
      /\ exists msg w1 script_id w2 e w3,
           _ensure_docker_image w = (Ok (true, msg), w1)
           /\ uuid4_hex8 w1 = (Ok script_id, w2)
           /\ (write_text (script_path_of script_id) code w2 = (Raise e, w3)
               \/ exists w3',
                    write_text (script_path_of script_id) code w2 = (Ok tt, w3')
                    /\ _execute_in_docker cfg code (script_path_of script_id) w3'
                       = (Raise e, w3))
           /\ run_python_code cfg code session_id w
              = (Ok (execution_error e),
                 snd (cleanup_script (script_path_of script_id) w3)))
  \/ (exists files_before script_path result w4,
        script_ran cfg code w files_before script_path result w4).
Proof.
  destruct (fst (_validate_code_safety code)) eqn:Hsafe.
  2:{ left. split; [reflexivity|]. unfold run_python_code.
      destruct (_validate_code_safety code) as [is_safe error_msg].
      simpl in *. subst is_safe. reflexivity. }
  right.
  destruct (ensure_docker_image_total w) as (ok & msg & w1 & Hprov & _).
  assert (Hrun : run_python_code cfg code session_id w
            = (let '(image_ok, image_msg) := (ok, msg) in
               if negb image_ok then ret (image_msg +:+ provisioning_hint) else
               files_before ← workspace_listing;
               script_id ← uuid4_hex8;
               let script_path := script_path_of script_id in
               try_finally
                 (try_except
                    (write_text script_path code;;
                     result ← _execute_in_docker cfg code script_path;
                     record_and_respond cfg code session_id (clock w) files_before result)
                    Exception
                    (fun e => ret (execution_error e)))
                 (cleanup_script script_path)) w1).
  { unfold run_python_code.
    destruct (_validate_code_safety code) as [is_safe error_msg].
    simpl in Hsafe. subst is_safe. unfold_monad. simpl. now rewrite Hprov. }
  destruct ok; simpl in Hrun.
  2:{ left. split; [reflexivity|]. exists msg, w1. split; [exact Hprov | exact Hrun]. }
  right.
  destruct (uuid4_hex8 w1) as [[script_id|ex] w2] eqn:Huuid.
  2:{ exfalso. revert Huuid. unfold uuid4_hex8. destruct (uuid_supply w1); discriminate. }
  revert Hrun. unfold workspace_listing. unfold_monad. rewrite Huuid.
  destruct (write_text (script_path_of script_id) code w2) as [[[]|e] w3] eqn:Hwrite.
  2:{ intros Hrun. left. split; [reflexivity|].
      exists msg, w1, script_id, w2, e, w3.
      split; [exact Hprov|]. split; [exact Huuid|]. split; [now left|].
      rewrite Hrun.
      destruct (cleanup_script_host (script_path_of script_id) w3) as (w4 & -> & _).
      reflexivity. }
  destruct (_execute_in_docker cfg code (script_path_of script_id) w3)
    as [[result|e] w4] eqn:Hexec.
  - intros _. right. exists (listing w1), (script_path_of script_id), result, w4.
    split; [exact Hsafe|]. exists msg, w1, script_id, w2, w3. tauto.
  - intros Hrun. left. split; [reflexivity|].
    exists msg, w1, script_id, w2, e, w4.
    split; [exact Hprov|]. split; [exact Huuid|].
    split; [right; exists w3; tauto|].
    rewrite Hrun.
    destruct (cleanup_script_host (script_path_of script_id) w4) as (w5 & -> & _).
    reflexivity.
Qed.

(** ** Safety Prefilter: what is accepted and which reason is given *)

(** X1. The prefilter accepts a code exactly when none of its six patterns
    occurs in it; nothing else in the code matters. *)
Theorem prefilter_accepts_exactly (code : string) :
  _validate_code_safety code = (true, "")
  <-> forall p, In p prefilter_patterns -> contains p code = false.
Proof.
  rewrite <- validate_code_safety_accepts. split; [now intros ->|].
  unfold _validate_code_safety.
  destruct (List.find _ dangerous_patterns); [discriminate|].
  destruct (contains "../" code || contains "/.." code); [discriminate | reflexivity].
Qed.

Lemma find_first_match {A} (f : A -> bool) (before after : list A) (q : A) :
  (forall p, In p before -> f p = false) -> f q = true ->
  List.find f (before ++ q :: after) = Some q.
Proof.
  intros Hbefore Hq. induction before as [|p before IH]; simpl.
  - now rewrite Hq.
  - rewrite (Hbefore p) by now left. apply IH. intros p' Hp'. apply Hbefore. now right.
Qed.

Lemma find_no_match {A} (f : A -> bool) (l : list A) :
  (forall p, In p l -> f p = false) -> List.find f l = None.
Proof.
  induction l as [|p l IH]; intros H; simpl; [reflexivity|].
  rewrite (H p) by now left. apply IH. intros p' Hp'. apply H. now right.
Qed.

(** X2. The reason names the first pattern of the list of dangerous
    patterns that occurs in the code, whatever else occurs; the path
    traversal message is given only when no dangerous pattern occurs. *)
Theorem prefilter_reports_first_match (code : string) :
  (forall before q after,
     dangerous_patterns = before ++ q :: after ->
     (forall p, In p before -> contains p code = false) ->
     contains q code = true ->
     _validate_code_safety code = (false, dangerous_prefix +:+ q))
  /\ ((forall p, In p dangerous_patterns -> contains p code = false) ->
      contains "../" code = true \/ contains "/.." code = true ->
      _validate_code_safety code = (false, traversal_message)).
Proof.
  split.
  - intros before q after Hlist Hbefore Hq. unfold _validate_code_safety.
    rewrite Hlist, (find_first_match _ before after q); auto.
  - intros Hnone Htrav. unfold _validate_code_safety.
    rewrite find_no_match by exact Hnone.
    destruct Htrav as [-> | ->]; [reflexivity|].
    now rewrite orb_true_r.
Qed.

Lemma prefilter_reports_first_match_witness :
  let code := "compile(eval(x), '../f', 'exec')" in
  (forall p, In p ["__import__"] -> contains p code = false)
  /\ contains "eval(" code = true
  /\ _validate_code_safety code = (false, dangerous_prefix +:+ "eval(").
Proof.
  intros code.
  assert (Hbefore : forall p, In p ["__import__"] -> contains p code = false).
  { intros p [<-|[]]. reflexivity. }
  assert (Hq : contains "eval(" code = true) by reflexivity.
  split; [exact Hbefore|]. split; [exact Hq|].
  exact (proj1 (prefilter_reports_first_match code) ["__import__"] "eval("
           ["exec("; "compile("] eq_refl Hbefore Hq).
Defined.

(** ** Output Governor: edge cases *)

(** X3. With a negative bound every output, even an empty one, is reported
    as truncated: the slice drops the last [|max_length|] characters (all
    of them when there are fewer) and the marker is appended. *)
Theorem sanitize_output_negative (output : string) (max_length : Z) :
  max_length < 0 ->
  _sanitize_output output max_length
  = str_take (len output - Z.to_nat (- max_length)) output
    +:+ truncation_marker (len output)
  /\ len (_sanitize_output output max_length)
     = (len output - Z.to_nat (- max_length)
        + len (truncation_marker (len output)))%nat.
Proof.
  intros Hneg.
  assert (Heq : _sanitize_output output max_length
                = str_take (len output - Z.to_nat (- max_length)) output
                  +:+ truncation_marker (len output)).
  { unfold _sanitize_output, slice_to.
    destruct (Z.ltb_spec max_length (Z.of_nat (len output))); [|lia].
    destruct (Z.leb_spec 0 max_length); [lia | reflexivity]. }
  split; [exact Heq|]. rewrite Heq, len_app, len_str_take. lia.
Qed.

Lemma sanitize_output_negative_witness :
  -2 < 0
  /\ _sanitize_output "" (-2) = truncation_marker 0
  /\ _sanitize_output "abc" (-2) = "a" +:+ truncation_marker 3.
Proof.
  assert (H : -2 < 0) by lia.
  split; [exact H|]. split.
  - exact (proj1 (sanitize_output_negative "" (-2) H)).
  - exact (proj1 (sanitize_output_negative "abc" (-2) H)).
Defined.

Lemma app_inj_len (a b c d : string) :
  len a = len b -> a +:+ c = b +:+ d -> a = b /\ c = d.
Proof.
  revert b. induction a as [|x a IH]; intros [|y b] Hlen Heq;
    try (unfold len in Hlen; simpl in Hlen; discriminate).
  - now split.
  - rewrite !app_String in Heq. injection Heq as -> Heq.
    destruct (IH b) as [-> ->]; auto.
Qed.

(** X4. A truncated output tells its original length and its first
    [max_length] characters: two outputs that are both longer than the
    bound and have the same governed form have the same length and agree
    on their first [max_length] characters. *)
Theorem sanitize_output_cut_determines (s t : string) (max_length : Z) :
  0 <= max_length ->
  max_length < Z.of_nat (len s) ->
  max_length < Z.of_nat (len t) ->
  _sanitize_output s max_length = _sanitize_output t max_length ->
  len s = len t
  /\ str_take (Z.to_nat max_length) s = str_take (Z.to_nat max_length) t.
Proof.
  intros Hmax Hs Ht Heq.
  rewrite !sanitize_output_cut in Heq by assumption.
  apply app_inj_len in Heq as [Htake Hmark].
  - split; [now apply truncation_marker_inj | exact Htake].
  - rewrite !len_str_take. lia.
Qed.

Lemma sanitize_output_cut_determines_witness :
  0 <= 3 /\ 3 < Z.of_nat (len "abcdef") /\ 3 < Z.of_nat (len "abcxyz")
  /\ _sanitize_output "abcdef" 3 = _sanitize_output "abcxyz" 3
  /\ len "abcdef" = len "abcxyz"
  /\ str_take (Z.to_nat 3) "abcdef" = str_take (Z.to_nat 3) "abcxyz".
Proof.
  assert (H0 : 0 <= 3) by lia.
  assert (H1 : 3 < Z.of_nat (len "abcdef")) by (simpl; lia).
  assert (H2 : 3 < Z.of_nat (len "abcxyz")) by (simpl; lia).
  assert (H3 : _sanitize_output "abcdef" 3 = _sanitize_output "abcxyz" 3)
    by reflexivity.
  split; [exact H0|]. split; [exact H1|]. split; [exact H2|]. split; [exact H3|].
  exact (sanitize_output_cut_determines "abcdef" "abcxyz" 3 H0 H1 H2 H3).
Defined.

(** ** Provisioner, Runner and orchestration: outcomes and side effects *)

(** X5. [_ensure_docker_image] never raises, whatever the engine does: it
    answers with a flag and a message. It launches no container, leaves the
    ledger alone, builds at most once, and answers [True] only when the
    image is there afterwards; a failure leaves the images as they were. *)
Theorem provisioner_never_raises (w : World) :
  exists ok msg w',
    _ensure_docker_image w = (Ok (ok, msg), w')
    /\ ledger w' = ledger w
    /\ launches (engine w') = launches (engine w)
    /\ (builds (engine w) <= builds (engine w') <= S (builds (engine w)))%nat
    /\ (ok = true -> SANDBOX_IMAGE ∈ local_images (engine w'))
    /\ (ok = false -> local_images (engine w') = local_images (engine w)).
Proof.
  destruct (ensure_docker_image_total w)
    as (ok & msg & w' & Hrun & L & _ & _ & _ & _ & _ & La & B1 & B2 & Hok & Hno).
  exists ok, msg, w'. split_and!; assumption.
Qed.

(** X6. On a host where the engine answers, the image is absent and the
    build definition file exists, [_ensure_docker_image] announces the
    build, builds once and, when the build succeeds, answers [True] with
    the image tagged; when the build fails it answers [False] with the
    engine's error and the image is still absent. *)
Theorem provisioner_builds_when_absent (w : World) :
  from_env_error (engine w) = None ->
  images_get_error (engine w) = None ->
  SANDBOX_IMAGE ∉ local_images (engine w) ->
  dockerfile_exists w = true ->
  exists ok msg w',
    _ensure_docker_image w = (Ok (ok, msg), w')
    /\ builds (engine w') = S (builds (engine w))
    /\ console w' = console w ++ ["Building Docker image python-sandbox:latest..."]
    /\ match build_error (engine w) with
       | None => ok = true /\ msg = "Image built successfully"
                 /\ local_images (engine w') = {[ SANDBOX_IMAGE ]} ∪ local_images (engine w)
       | Some err => ok = false /\ msg = "‚ùå Docker error: " +:+ err
                     /\ local_images (engine w') = local_images (engine w)
       end.
Proof.
  intros Henv Hget Hout Hfile.
  unfold _ensure_docker_image, docker_from_env, images_get, images_build, print.
  unfold_monad. rewrite Henv, Hget. simpl.
  destruct (decide _) as [Hin|_]; [contradiction|]. simpl. rewrite Hfile. simpl.
  destruct (build_error (engine w)) as [err|] eqn:Hb; simpl;
    eexists _, _, _; (split; [reflexivity|]); simpl; tauto.
Qed.

Lemma provisioner_builds_when_absent_witness :
  let w := fresh_world unbuilt_engine [] in
  from_env_error (engine w) = None /\ images_get_error (engine w) = None
  /\ (SANDBOX_IMAGE ∉ local_images (engine w)) /\ dockerfile_exists w = true
  /\ exists w',
       _ensure_docker_image w = (Ok (true, "Image built successfully"), w')
       /\ builds (engine w') = 1%nat.
Proof.
  intros w.
  assert (Hout : SANDBOX_IMAGE ∉ local_images (engine w)) by (simpl; set_solver).
  split; [reflexivity|]. split; [reflexivity|]. split; [exact Hout|].
  split; [reflexivity|].
  destruct (provisioner_builds_when_absent w eq_refl eq_refl Hout eq_refl)
    as (ok & msg & w' & Hrun & Hbuilds & _ & Hok & Hmsg & _).
  exists w'. rewrite Hrun, Hok, Hmsg. split; [reflexivity | exact Hbuilds].
Defined.

(** X7. When provisioning fails, [run_python_code] returns the
    provisioner's message followed by the hint and goes no further: no
    container is launched, no script is written and the ledger is left as
    it is. *)
Theorem provisioning_failure_stops_the_call
    (cfg : Settings) (code session_id : string) (w : World) (msg : string) (w1 : World) :
  fst (_validate_code_safety code) = true ->
  _ensure_docker_image w = (Ok (false, msg), w1) ->
  run_python_code cfg code session_id w = (Ok (msg +:+ provisioning_hint), w1)
  /\ launches (engine w1) = launches (engine w)
  /\ tmp_files w1 = tmp_files w
  /\ ledger w1 = ledger w.
Proof.
  intros Hsafe Hprov.
  destruct (ensure_docker_image_total w)
    as (ok & msg' & w' & Hrun & L & _ & _ & T & _ & _ & La & _).
  rewrite Hprov in Hrun. injection Hrun as <- <- <-.
  split; [|tauto].
  unfold run_python_code.
  destruct (_validate_code_safety code) as [is_safe error_msg].
  simpl in Hsafe. subst is_safe. unfold_monad. simpl. now rewrite Hprov.
Qed.

Lemma provisioning_failure_stops_the_call_witness :
  fst (_validate_code_safety sleeper_code) = true
  /\ _ensure_docker_image bare_world
     = (Ok (false, dockerfile_missing_message), bare_world)
  /\ run_python_code default_settings sleeper_code "session" bare_world
     = (Ok (dockerfile_missing_message +:+ provisioning_hint), bare_world).
Proof.
  assert (Hsafe : fst (_validate_code_safety sleeper_code) = true) by reflexivity.
  assert (Hprov : _ensure_docker_image bare_world
                  = (Ok (false, dockerfile_missing_message), bare_world))
    by reflexivity.
  split; [exact Hsafe|]. split; [exact Hprov|].
  exact (proj1 (provisioning_failure_stops_the_call default_settings sleeper_code
                  "session" bare_world _ _ Hsafe Hprov)).
Defined.

(** X8. [_execute_in_docker] starts at most one container per call: exactly
    one when the client can be made, none otherwise. It never builds or
    removes an image, never writes to the ledger, the console or the
    temporary directory. *)
Theorem runner_launches_once
    (cfg : Settings) (code script_path : string) (w : World) :
  let w' := snd (_execute_in_docker cfg code script_path w) in
  launches (engine w')
  = match from_env_error (engine w) with
    | Some _ => launches (engine w)
    | None => S (launches (engine w))
    end
  /\ builds (engine w') = builds (engine w)
  /\ local_images (engine w') = local_images (engine w)
  /\ ledger w' = ledger w /\ console w' = console w
  /\ tmp_files w' = tmp_files w.
Proof.
  destruct (execute_in_docker_frame cfg code script_path w)
    as (L & T & C & _ & _ & B & I & La).
  split_and!; assumption.
Qed.

(** X9. In the [except ContainerError] branch, when the error object has a
    [stdout] attribute and its outputs decode, the outcome carries the exit
    status of the container, the decoded stdout (empty when there is none)
    and, as stderr, the decoded [e.stderr] or, when that is missing or
    empty, the text of the exception. *)
Theorem container_error_stderr_fallback
    (e : ContainerError) (out err : option string) (w : World) :
  ce_stdout e = HasAttr (Encoded <$> out) ->
  ce_stderr e = Encoded <$> err ->
  container_error_outcome e w
  = (Ok {| out_stdout := default "" out;
           out_stderr := match err with
                         | Some (String c t) => String c t
                         | _ => ce_message e
                         end;
           out_returncode := exit_status e |}, w).
Proof.
  intros Hout Herr. unfold container_error_outcome. unfold_monad.
  rewrite Hout, Herr.
  destruct out as [[|c o]|], err as [[|c' t]|]; reflexivity.
Qed.

Lemma container_error_stderr_fallback_witness :
  let e := {| exit_status := 1; ce_stdout := HasAttr (Some (Encoded "partial"));
              ce_stderr := Some (Encoded ""); ce_message := "Command failed" |} in
  let w := fresh_world (ready_engine sleeper) [] in
  ce_stdout e = HasAttr (Encoded <$> Some "partial")
  /\ ce_stderr e = Encoded <$> Some ""
  /\ container_error_outcome e w
     = (Ok {| out_stdout := "partial"; out_stderr := "Command failed";
              out_returncode := 1 |}, w).
Proof.
  intros e w. split; [reflexivity|]. split; [reflexivity|].
  exact (container_error_stderr_fallback e (Some "partial") (Some "") w eq_refl eq_refl).
Defined.

Lemma uuid4_hex8_frame (w : World) (script_id : string) (w2 : World) :
  uuid4_hex8 w = (Ok script_id, w2) ->
  ledger w2 = ledger w /\ tmp_files w2 = tmp_files w /\ console w2 = console w
  /\ engine w2 = engine w /\ tmp_write_error w2 = tmp_write_error w
  /\ workspace w2 = workspace w /\ clock w2 = clock w.
Proof.
  unfold uuid4_hex8. destruct (uuid_supply w); intros [= _ <-]; simpl; tauto.
Qed.

Lemma write_text_frame (path content : string) (w : World) (r : Result unit) (w3 : World) :
  write_text path content w = (r, w3) ->
  ledger w3 = ledger w /\ console w3 = console w /\ engine w3 = engine w
  /\ workspace w3 = workspace w /\ clock w3 = clock w
  /\ match r with
     | Ok _ => tmp_files w3 = <[ path := content ]> (tmp_files w)
     | Raise e => tmp_files w3 = tmp_files w
                  /\ exists msg, tmp_write_error w = Some msg
                                 /\ e = OtherException "OSError" msg
     end.
Proof.
  unfold write_text. destruct (tmp_write_error w) eqn:Herr; intros [= <- <-]; simpl.
  - split_and!; try reflexivity. eexists. split; reflexivity.
  - tauto.
Qed.

(** The world in which the script has just run. *)
Lemma script_ran_world
    (cfg : Settings) (code : string) (w : World) (files_before : gset string)
    (script_path : string) (result : RunOutcome) (w4 : World) :
  script_ran cfg code w files_before script_path result w4 ->
  tmp_files w4 = <[ script_path := code ]> (tmp_files w)
  /\ (launches (engine w4) <= S (launches (engine w)))%nat.
Proof.
  intros (_ & msg & w1 & sid & w2 & w3 & Hprov & _ & Huuid & -> & Hwrite & Hexec).
  destruct (ensure_docker_image_total w)
    as (ok & msg' & w' & Hrun & _ & _ & _ & T1 & _ & _ & La1 & _).
  rewrite Hprov in Hrun. injection Hrun as <- <- <-.
  destruct (uuid4_hex8_frame _ _ _ Huuid) as (_ & T2 & _ & E2 & _).
  destruct (write_text_frame _ _ _ _ _ Hwrite) as (_ & _ & E3 & _ & _ & T3).
  destruct (execute_in_docker_frame cfg code (script_path_of sid) w3)
    as (_ & T4 & _ & _ & _ & _ & _ & La4).
  rewrite Hexec in T4, La4. simpl in T4, La4.
  split; [congruence|].
  rewrite La4, E3, E2, La1. destruct (from_env_error (engine w1)); lia.
Qed.

(** The world a completed run ends in: the one the "Save to database"
    block leaves, with the script removed. *)
Lemma completed_run_world
    (cfg : Settings) (code session_id : string) (w : World)
    (files_before : gset string) (script_path : string)
    (result : RunOutcome) (w4 : World) :
  script_ran cfg code w files_before script_path result w4 ->
  exists summary w5,
    same_host w4 w5
    /\ run_python_code cfg code session_id w
       = (Ok summary, snd (cleanup_script script_path w5)).
Proof.
  intros Hran.
  destruct (save_to_database_result session_id code (strip (out_stdout result))
              (strip (out_stderr result)) (out_returncode result)
              (new_files_of files_before (listing w4)) (clock w4 - clock w) w4)
    as (eid & w5 & Hsave & Hhost & _).
  pose proof (record_and_respond_result cfg code session_id (clock w) files_before
                result w4 eid w5 Hsave) as Hrest.
  eexists _, w5. split; [exact Hhost|].
  exact (run_python_code_after_script _ _ session_id _ _ _ _ _ _ _ Hran Hrest).
Qed.


(** X11. No temporary script outlives the call: whatever the outcome, every
    file of the temporary directory after [run_python_code] was there, with
    the same content, before it. (The removal in the [finally] block is
    taken to succeed; the code ignores its failure.) *)
Theorem temporary_script_removed
    (cfg : Settings) (code session_id : string) (w : World) :
  tmp_files (snd (run_python_code cfg code session_id w)) ⊆ tmp_files w.
Proof.
  destruct (run_python_code_cases cfg code session_id w)
    as [(_ & Hrun) | [(_ & msg & w1 & Hprov & Hrun)
       | [(_ & msg & w1 & sid & w2 & e & w3 & Hprov & Huuid & Hfail & Hrun)
       | (fb & path & result & w4 & Hran)]]].
  - now rewrite Hrun.
  - rewrite Hrun. simpl.
    destruct (ensure_docker_image_total w) as (ok & m & w' & H & _ & _ & _ & T & _).
    rewrite Hprov in H. injection H as <- <- <-. now rewrite T.
  - rewrite Hrun. simpl.
    destruct (ensure_docker_image_total w) as (ok & m & w' & H & _ & _ & _ & T1 & _).
    rewrite Hprov in H. injection H as <- <- <-.
    destruct (uuid4_hex8_frame _ _ _ Huuid) as (_ & T2 & _).
    assert (Hsub : delete (script_path_of sid) (tmp_files w3) ⊆ tmp_files w).
    { destruct Hfail as [Hwrite | (w3' & Hwrite & Hexec)].
      - destruct (write_text_frame _ _ _ _ _ Hwrite) as (_ & _ & _ & _ & _ & T3 & _).
        rewrite T3, T2, T1. apply delete_subseteq.
      - destruct (write_text_frame _ _ _ _ _ Hwrite) as (_ & _ & _ & _ & _ & T3).
        destruct (execute_in_docker_frame cfg code (script_path_of sid) w3')
          as (_ & T4 & _).
        rewrite Hexec in T4. simpl in T4.
        rewrite T4, T3, T2, T1, delete_insert_eq. apply delete_subseteq. }
    unfold cleanup_script. destruct (tmp_files w3 !! script_path_of sid) eqn:Hlook; simpl.
    + exact Hsub.
    + now rewrite delete_id in Hsub.
  - destruct (completed_run_world cfg code session_id w fb path result w4 Hran)
      as (summary & w5 & Hhost & Hrun).
    rewrite Hrun. simpl.
    destruct (script_ran_world _ _ _ _ _ _ _ Hran) as [T4 _].
    destruct Hhost as (_ & _ & _ & _ & T5 & _).
    unfold cleanup_script. rewrite T5, T4, lookup_insert_eq. simpl.
    rewrite delete_insert_eq. apply delete_subseteq.
Qed.

(** X12. When [_execute_in_docker] raises (an exception that is not a
    [DockerException]: the output does not decode, the error object has no
    [stdout]), [run_python_code] returns the "Execution error" message with
    the class and the text of the exception; the run is not saved to the
    ledger and nothing is printed. *)
Theorem execution_error_leaves_no_record
    (cfg : Settings) (code session_id : string) (w : World)
    (msg script_id : string) (w1 w2 w3 w4 : World) (e : exn) :
  fst (_validate_code_safety code) = true ->
  _ensure_docker_image w = (Ok (true, msg), w1) ->
  uuid4_hex8 w1 = (Ok script_id, w2) ->
  write_text (script_path_of script_id) code w2 = (Ok tt, w3) ->
  _execute_in_docker cfg code (script_path_of script_id) w3 = (Raise e, w4) ->
  exists w',
    run_python_code cfg code session_id w = (Ok (execution_error e), w')
    /\ ledger w' = ledger w
    /\ console w' = console w1.
Proof.
  intros Hsafe Hprov Huuid Hwrite Hexec.
  destruct (cleanup_script_host (script_path_of script_id) w4)
    as (w5 & Hclean & L5 & C5 & _).
  exists w5. split.
  - unfold run_python_code.
    destruct (_validate_code_safety code) as [is_safe error_msg].
    simpl in Hsafe. subst is_safe. unfold_monad. simpl. rewrite Hprov. simpl.
    unfold workspace_listing. rewrite Huuid, Hwrite, Hexec, Hclean. reflexivity.
  - destruct (ensure_docker_image_total w) as (ok & m & w' & H & L1 & _).
    rewrite Hprov in H. injection H as <- <- <-.
    destruct (uuid4_hex8_frame _ _ _ Huuid) as (L2 & _ & C2 & _).
    destruct (write_text_frame _ _ _ _ _ Hwrite) as (L3 & C3 & _).
    destruct (execute_in_docker_frame cfg code (script_path_of script_id) w3)
      as (L4 & _ & C4 & _).
    rewrite Hexec in L4, C4. simpl in L4, C4. split; congruence.
Qed.

Lemma execution_error_leaves_no_record_witness :
  let w := fresh_world (ready_engine garbler) [] in
  let w2 := snd (uuid4_hex8 w) in
  let w3 := snd (write_text fresh_script_path garbler_code w2) in
  let w4 := snd (_execute_in_docker default_settings garbler_code fresh_script_path w3) in
  let e := OtherException "UnicodeDecodeError" "'utf-8' codec can't decode bytes" in
  fst (_validate_code_safety garbler_code) = true
  /\ _ensure_docker_image w = (Ok (true, "Image exists"), w)
  /\ uuid4_hex8 w = (Ok "01234567", w2)
  /\ write_text (script_path_of "01234567") garbler_code w2 = (Ok tt, w3)
  /\ _execute_in_docker default_settings garbler_code (script_path_of "01234567") w3
     = (Raise e, w4)
  /\ exists w',
       run_python_code default_settings garbler_code "session" w
       = (Ok (execution_error e), w')
       /\ ledger w' = ledger w.
Proof.
  intros w w2 w3 w4 e.
  assert (H1 : fst (_validate_code_safety garbler_code) = true) by reflexivity.
  assert (H2 : _ensure_docker_image w = (Ok (true, "Image exists"), w)) by reflexivity.
  assert (H3 : uuid4_hex8 w = (Ok "01234567", w2)) by reflexivity.
  assert (H4 : write_text (script_path_of "01234567") garbler_code w2 = (Ok tt, w3))
    by reflexivity.
  assert (H5 : _execute_in_docker default_settings garbler_code
                 (script_path_of "01234567") w3 = (Raise e, w4)) by reflexivity.
  split; [exact H1|]. split; [exact H2|]. split; [exact H3|].
  split; [exact H4|]. split; [exact H5|].
  destruct (execution_error_leaves_no_record default_settings garbler_code "session"
              w _ _ w w2 w3 w4 e H1 H2 H3 H4 H5) as (w' & Hrun & Hledger & _).
  exists w'. split; [exact Hrun | exact Hledger].
Defined.

(** ** File types *)

Lemma no_dot_cons (c : ascii) (s : string) :
  contains "." (String c s) = false -> c <> "."%char /\ contains "." s = false.
Proof.
  cbn [contains startswith]. destruct (Ascii.eqb_spec "."%char c) as [<-|Hne].
  - discriminate.
  - simpl. intros H. split; [congruence | exact H].
Qed.

Lemma from_last_dot_none (s : string) :
  contains "." s = false -> from_last_dot s = None.
Proof.
  induction s as [|c s IH]; intros H; [reflexivity|].
  apply no_dot_cons in H as [Hc Hs]. simpl. rewrite (IH Hs).
  destruct (Ascii.eqb_spec c "."%char); [contradiction | reflexivity].
Qed.

Lemma from_last_dot_ext (stem ext : string) :
  contains "." ext = false ->
  from_last_dot (stem +:+ "." +:+ ext) = Some ("." +:+ ext).
Proof.
  intros Hext. induction stem as [|c stem IH].
  - change ("" +:+ "." +:+ ext) with (String "."%char ext).
    simpl. now rewrite (from_last_dot_none ext Hext).
  - rewrite app_String. simpl. now rewrite IH.
Qed.

Lemma lstrip_dots_no_dot (s : string) :
  contains "." s = false -> lstrip_dots s = s.
Proof.
  destruct s as [|c s]; [reflexivity|]. intros H.
  apply no_dot_cons in H as [Hc _]. simpl.
  destruct (Ascii.eqb_spec c "."%char); [contradiction | reflexivity].
Qed.

(** X13. The type recorded for a file is its extension: for a name made of
    a stem that does not start with a dot, a dot and a non-empty extension
    without dots, it is that extension; a name without any dot, a name that
    only starts with its dot and a name that ends with a dot have the type
    "unknown". *)
Theorem file_type_is_the_extension (stem ext : string) :
  contains "." ext = false ->
  (stem <> "" -> startswith "." stem = false -> ext <> "" ->
   file_type_of (stem +:+ "." +:+ ext) = ext)
  /\ file_type_of ext = "unknown"
  /\ file_type_of ("." +:+ ext) = "unknown"
  /\ file_type_of (stem +:+ ".") = "unknown".
Proof.
  intros Hext. split_and!.
  - intros Hstem _ Hne. unfold file_type_of, path_suffix.
    rewrite (from_last_dot_ext stem ext Hext).
    assert (Hlen : (len ("." +:+ ext) <? len (stem +:+ "." +:+ ext))%nat = true).
    { apply Nat.ltb_lt. rewrite (len_app stem).
      destruct stem; [contradiction|]. unfold len at 2. simpl. lia. }
    assert (Hlen' : (1 <? len ("." +:+ ext))%nat = true).
    { apply Nat.ltb_lt. rewrite len_app. change (len ".") with 1%nat.
      destruct ext; [contradiction|]. unfold len. simpl. lia. }
    rewrite Hlen, Hlen'. simpl.
    change ("" +:+ ext) with ext.
    rewrite (lstrip_dots_no_dot ext Hext). now destruct ext.
  - unfold file_type_of, path_suffix. now rewrite (from_last_dot_none ext Hext).
  - unfold file_type_of, path_suffix.
    change ("." +:+ ext) with ("" +:+ "." +:+ ext).
    rewrite (from_last_dot_ext "" ext Hext).
    change ("" +:+ "." +:+ ext) with ("." +:+ ext).
    now rewrite Nat.ltb_irrefl.
  - unfold file_type_of, path_suffix.
    replace (stem +:+ ".") with (stem +:+ "." +:+ "") by reflexivity.
    rewrite (from_last_dot_ext stem "" eq_refl).
    change (len ("." +:+ "")) with 1%nat. rewrite Nat.ltb_irrefl, andb_false_r.
    reflexivity.
Qed.

Lemma file_type_is_the_extension_witness :
  contains "." "png" = false
  /\ file_type_of "plot.png" = "png"
  /\ file_type_of ".png" = "unknown".
Proof.
  assert (H : contains "." "png" = false) by reflexivity.
  destruct (file_type_is_the_extension "plot" "png" H) as (Hext & _ & Hhidden & _).
  split; [exact H|]. split; [|exact Hhidden].
  apply Hext; [discriminate | reflexivity | discriminate].
Defined.

(** ** The file records of a call *)

Lemma save_file_metadata_rows
    (session_id filename : string) (execution_id : option nat) (w : World) :
  let w' := snd (_save_file_metadata session_id filename execution_id w) in
  code_executions (ledger w') = code_executions (ledger w)
  /\ forall r, r ∈ workspace_files (ledger w') ->
       r ∈ workspace_files (ledger w)
       \/ file_record_of (workspace w) session_id execution_id filename r.
Proof.
  unfold _save_file_metadata, with_get_db, WorkspaceRepository.save_file_metadata,
    session_commit, session_add, SessionLocal, print, file_record_of.
  unfold_monad.
  destruct (workspace w) as [files|] eqn:Hws; simpl; [|tauto].
  destruct (files !! filename) as [size|] eqn:Hfile; simpl; [|tauto].
  destruct (commit_faults (ledger w)) as [|[] [|[] faults]] eqn:Hfaults; simpl.
  all: split; [reflexivity|]; intros r Hr; try tauto.
  all: apply elem_of_app in Hr as [Hr|Hr]; [now left|].
  all: apply list_elem_of_singleton in Hr as ->; right; simpl; tauto.
Qed.

Lemma save_file_metadata_loop_rows
    (session_id : string) (execution_id : option nat) (new_files : list string)
    (w : World) :
  let w' := snd (for_each new_files
                   (fun filename => _save_file_metadata session_id filename execution_id)
                   w) in
  code_executions (ledger w') = code_executions (ledger w)
  /\ forall r, r ∈ workspace_files (ledger w') ->
       r ∈ workspace_files (ledger w)
       \/ exists f, f ∈ new_files
            /\ file_record_of (workspace w) session_id execution_id f r.
Proof.
  revert w. induction new_files as [|f rest IH]; intros w; simpl.
  - split; [reflexivity | tauto].
  - destruct (save_file_metadata_result session_id f execution_id w)
      as (w1 & Hrun1 & Hhost1 & _).
    destruct (save_file_metadata_rows session_id f execution_id w) as [E1 R1].
    rewrite Hrun1 in E1, R1. simpl in E1, R1.
    unfold bind. rewrite Hrun1.
    destruct (IH w1) as [E2 R2]. split; [congruence|].
    intros r Hr. destruct (R2 r Hr) as [Hold | (f' & Hf' & Hrec)].
    + destruct (R1 r Hold) as [Hold' | Hrec]; [now left|].
      right. exists f. split; [now left | exact Hrec].
    + right. exists f'. split; [now right|].
      destruct Hhost1 as (_ & _ & _ & W & _). now rewrite <- W.
Qed.

Lemma save_to_database_rows
    (session_id code stdout stderr : string) (returncode : Z)
    (new_files : list string) (execution_time : Z) (w : World) :
  let w' := snd (save_to_database session_id code stdout stderr returncode new_files
                   execution_time w) in
  forall r, r ∈ workspace_files (ledger w') ->
    r ∈ workspace_files (ledger w)
    \/ exists e f,
         e ∈ code_executions (ledger w')
         /\ ex_session_id e = session_id /\ ex_created_files e = new_files
         /\ f ∈ new_files
         /\ file_record_of (workspace w) session_id (Some (ex_id e)) f r.
Proof.
  cbv zeta.
  remember (snd (save_to_database session_id code stdout stderr returncode new_files
                   execution_time w)) as w' eqn:Hw'.
  revert Hw'.
  unfold save_to_database, ExecutionRepository.save_execution, session_add,
    SessionLocal.
  unfold mbind, M_bind, bind, attempt.
  destruct (commit_faults (ledger w)) as [|fault faults] eqn:Hfaults.
  all: unfold session_commit at 1; rewrite Hfaults; simpl.
  all: try destruct fault; simpl.
  2:{ unfold print, modify_world, mret, M_ret, ret. simpl. intros ->. simpl. tauto. }
  all: match goal with
       | |- context [ExecutionRow ?e] => set (e' := e)
       end.
  all: change (next_id (ex_id <$> code_executions (ledger w))) with (ex_id e').
  all: match goal with
       | |- context [try_except _ _ _ ?w1] => set (w1' := w1)
       end.
  all: destruct (save_file_metadata_loop session_id (Some (ex_id e')) new_files w1')
         as (w2 & rows & Hloop & _).
  all: destruct (save_file_metadata_loop_rows session_id (Some (ex_id e')) new_files w1')
         as [Hexecs Hrows].
  all: rewrite Hloop in Hexecs, Hrows; simpl in Hexecs, Hrows.
  all: unfold try_except, mbind, M_bind, bind; rewrite Hloop.
  all: unfold session_commit;
       destruct (commit_faults (ledger w2)) as [|[] faults2] eqn:Hfaults2; simpl;
       unfold print, modify_world, mret, M_ret, ret, Exception; simpl.
  all: intros -> r Hr; simpl in Hr |- *.
  all: destruct (Hrows r Hr) as [Hold | (f & Hf & Hrec)]; [now left|].
  all: right; exists e', f; rewrite Hexecs.
  all: split; [subst w1'; simpl; apply elem_of_app; right; now left|].
  all: split; [reflexivity|]; split; [reflexivity|]; split; [exact Hf | exact Hrec].
Qed.

(** The world a completed run ends in, from the world after the script. *)
Lemma completed_run_saved
    (cfg : Settings) (code session_id : string) (w : World)
    (files_before : gset string) (script_path : string)
    (result : RunOutcome) (w4 : World) :
  script_ran cfg code w files_before script_path result w4 ->
  snd (run_python_code cfg code session_id w)
  = snd (cleanup_script script_path
           (snd (save_to_database session_id code (strip (out_stdout result))
                   (strip (out_stderr result)) (out_returncode result)
                   (new_files_of files_before (listing w4)) (clock w4 - clock w) w4))).
Proof.
  intros Hran.
  destruct (save_to_database_result session_id code (strip (out_stdout result))
              (strip (out_stderr result)) (out_returncode result)
              (new_files_of files_before (listing w4)) (clock w4 - clock w) w4)
    as (eid & w5 & Hsave & _).
  pose proof (record_and_respond_result cfg code session_id (clock w) files_before
                result w4 eid w5 Hsave) as Hrest.
  rewrite (run_python_code_after_script _ _ session_id _ _ _ _ _ _ _ Hran Hrest), Hsave.
  reflexivity.
Qed.

(** A call that does not get as far as the "Save to database" block leaves
    the ledger as it is. *)
Lemma unfinished_call_ledger (cfg : Settings) (code session_id : string) (w : World) :
  (forall files_before script_path result w4,
     ~ script_ran cfg code w files_before script_path result w4) ->
  ledger (snd (run_python_code cfg code session_id w)) = ledger w.
Proof.
  intros Hnot.
  destruct (run_python_code_cases cfg code session_id w)
    as [(_ & Hrun) | [(_ & msg & w1 & Hprov & Hrun)
       | [(_ & msg & w1 & sid & w2 & e & w3 & Hprov & Huuid & Hfail & Hrun)
       | (fb & path & result & w4 & Hran)]]].
  - now rewrite Hrun.
  - rewrite Hrun. simpl.
    destruct (ensure_docker_image_total w) as (ok & m & w' & H & L & _).
    rewrite Hprov in H. now injection H as <- <- <-.
  - rewrite Hrun. simpl.
    destruct (cleanup_script_host (script_path_of sid) w3) as (w4 & -> & L4 & _).
    simpl. rewrite L4.
    destruct (ensure_docker_image_total w) as (ok & m & w' & H & L1 & _).
    rewrite Hprov in H. injection H as <- <- <-.
    destruct (uuid4_hex8_frame _ _ _ Huuid) as (L2 & _).
    destruct Hfail as [Hwrite | (w3' & Hwrite & Hexec)].
    + destruct (write_text_frame _ _ _ _ _ Hwrite) as (L3 & _). congruence.
    + destruct (write_text_frame _ _ _ _ _ Hwrite) as (L3 & _).
      destruct (execute_in_docker_frame cfg code (script_path_of sid) w3') as (L & _).
      rewrite Hexec in L. simpl in L. congruence.
  - now destruct (Hnot fb path result w4).
Qed.

(** X14. Every file record a call of [run_python_code] adds to the ledger
    describes a file that is in the workspace after the call: it carries
    the session of the call, the file's name as name and as path, its size
    in the workspace, the type read off its name and no description; and it
    is linked to an execution record of that session that is in the ledger
    and lists the file among its created files. *)
Theorem file_records_describe_files
    (cfg : Settings) (code session_id : string) (w : World) :
  let w' := snd (run_python_code cfg code session_id w) in
  forall r, r ∈ workspace_files (ledger w') ->
    r ∈ workspace_files (ledger w)
    \/ (wf_session_id r = session_id
        /\ wf_file_path r = wf_filename r
        /\ workspace w' ≫= (fun files => files !! wf_filename r) = Some (wf_file_size r)
        /\ wf_file_type r = file_type_of (wf_filename r)
        /\ wf_description r = None
        /\ exists e,
             e ∈ code_executions (ledger w')
             /\ wf_execution_id r = Some (ex_id e)
             /\ ex_session_id e = session_id
             /\ wf_filename r ∈ ex_created_files e).
Proof.
  intros w' r Hr. subst w'.
  destruct (run_python_code_cases cfg code session_id w)
    as [Hc | [Hc | [Hc | (fb & path & result & w4 & Hran)]]].
  4:{ pose proof (completed_run_saved cfg code session_id w fb path result w4 Hran) as Hw'.
      pose proof (script_ran_ledger _ _ _ _ _ _ _ Hran) as L4.
      set (nf := new_files_of fb (listing w4)) in *.
      set (w5 := snd (save_to_database _ _ _ _ _ nf _ w4)) in *.
      destruct (save_to_database_result session_id code (strip (out_stdout result))
                  (strip (out_stderr result)) (out_returncode result) nf
                  (clock w4 - clock w) w4) as (eid & w5' & Hsave & Hhost & _).
      assert (w5' = w5) by (subst w5; now rewrite Hsave). subst w5'.
      destruct (cleanup_script_host path w5) as (w6 & Hclean & L6 & _ & W6 & _).
      rewrite Hclean in Hw'. simpl in Hw'. rewrite Hw' in Hr |- *.
      rewrite L6 in Hr |- *. rewrite W6.
      destruct (save_to_database_rows session_id code (strip (out_stdout result))
                  (strip (out_stderr result)) (out_returncode result) nf
                  (clock w4 - clock w) w4 r Hr)
        as [Hold | (e & f & He & Hsid & Hfiles & Hf & Hrec)].
      - left. now rewrite <- L4.
      - right. destruct Hrec as (R1 & R2 & R3 & R4 & R5 & R6 & R7).
        destruct Hhost as (_ & _ & _ & W5 & _). rewrite W5, R2.
        split_and!; try assumption; try congruence.
        exists e. split_and!; try assumption. congruence. }
  all: left.
  all: rewrite unfinished_call_ledger in Hr; [exact Hr|].
  all: intros fb path result w4 (Hsafe & msg' & w1' & sid' & w2' & w3' & Hprov' & _
                                   & Huuid' & -> & Hwrite' & Hexec').
  - destruct Hc as [Hc _]. congruence.
  - destruct Hc as (_ & msg & w1 & Hprov & _). congruence.
  - destruct Hc as (_ & msg & w1 & sid & w2 & e & w3 & Hprov & Huuid & Hfail & _).
    rewrite Hprov in Hprov'. injection Hprov' as <- <-.
    rewrite Huuid in Huuid'. injection Huuid' as <- <-.
    destruct Hfail as [Hwrite | (w3'' & Hwrite & Hexec)].
    + congruence.
    + rewrite Hwrite in Hwrite'. injection Hwrite' as <-. congruence.
Qed.

(** ** Ledger queries *)

#[global] Instance newer_first_trans : Transitive newer_first.
Proof. unfold newer_first. intros a b c. lia. Qed.

#[global] Instance newer_first_total : Total newer_first.
Proof. unfold newer_first. intros a b. lia. Qed.

(** The rows a sorted, limited query returns. *)
Lemma limited_query_rows (P : CodeExecution -> bool) (rows : list CodeExecution)
    (limit : nat) :
  let found := take limit (most_recent_first (List.filter P rows)) in
  (forall e, e ∈ found -> e ∈ rows /\ P e = true)
  /\ length found = Nat.min limit (length (List.filter P rows))
  /\ StronglySorted newer_first found
  /\ ((length (List.filter P rows) <= limit)%nat -> found ≡ₚ List.filter P rows).
Proof.
  intros found. subst found. unfold most_recent_first.
  set (sorted := merge_sort newer_first (List.filter P rows)).
  assert (Hperm : sorted ≡ₚ List.filter P rows) by apply merge_sort_Permutation.
  assert (Hsorted : StronglySorted newer_first sorted)
    by apply (StronglySorted_merge_sort newer_first).
  split_and!.
  - intros e He.
    assert (He' : e ∈ sorted) by (eapply subseteq_take; exact He).
    rewrite Hperm in He'. apply list_elem_of_In, filter_In in He' as [Hin HP].
    split; [now apply list_elem_of_In | exact HP].
  - rewrite length_take, Hperm. reflexivity.
  - rewrite <- (take_drop limit sorted) in Hsorted.
    now apply StronglySorted_app_1_l in Hsorted.
  - intros Hlen. rewrite take_ge; [exact Hperm|]. now rewrite Hperm.
Qed.

(** X15. The history of a session holds rows of the ledger that belong to
    that session and no others, the most recent first, as many as the
    session has but no more than the limit; when the limit allows, it is
    all the rows of the session. *)
Theorem session_history_recent_first (l : Ledger) (session_id : string) (limit : nat) :
  let history := get_session_history l session_id limit in
  let of_session (e : CodeExecution) := String.eqb (ex_session_id e) session_id in
  (forall e, e ∈ history -> e ∈ code_executions l /\ ex_session_id e = session_id)
  /\ length history = Nat.min limit (length (List.filter of_session (code_executions l)))
  /\ StronglySorted (fun a b => ex_created_at b <= ex_created_at a) history
  /\ ((length (List.filter of_session (code_executions l)) <= limit)%nat ->
      history ≡ₚ List.filter of_session (code_executions l)).
Proof.
  intros history of_session.
  destruct (limited_query_rows of_session (code_executions l) limit)
    as (Hin & Hlen & Hsorted & Hall).
  split_and!; try assumption.
  intros e He. destruct (Hin e He) as [Hrow Hsid]. split; [exact Hrow|].
  now apply String.eqb_eq.
Qed.

(** X16. The recent executions are rows of the ledger created within the
    last [hours] hours, the most recent first, no more than the limit; when
    the limit allows, all of them. *)
Theorem recent_executions_within_window (l : Ledger) (now hours : Z) (limit : nat) :
  let recent := get_recent_executions l now hours limit in
  let in_window (e : CodeExecution) := now - hours * hour <=? ex_created_at e in
  (forall e, e ∈ recent ->
     e ∈ code_executions l /\ now - hours * hour <= ex_created_at e)
  /\ (length recent <= limit)%nat
  /\ StronglySorted (fun a b => ex_created_at b <= ex_created_at a) recent
  /\ ((length (List.filter in_window (code_executions l)) <= limit)%nat ->
      forall e, e ∈ code_executions l -> now - hours * hour <= ex_created_at e ->
                e ∈ recent).
Proof.
  intros recent in_window.
  destruct (limited_query_rows in_window (code_executions l) limit)
    as (Hin & Hlen & Hsorted & Hall).
  split_and!.
  - intros e He. destruct (Hin e He) as [Hrow Hw]. split; [exact Hrow|].
    now apply Z.leb_le.
  - unfold recent, get_recent_executions. fold in_window. rewrite Hlen. lia.
  - exact Hsorted.
  - intros Hlimit e He Hw. unfold recent, get_recent_executions. fold in_window.
    rewrite (Hall Hlimit). apply list_elem_of_In, filter_In.
    split; [now apply list_elem_of_In | now apply Z.leb_le].
Qed.

Lemma file_records_describe_files_witness :
  let w := fresh_world (ready_engine writer) [] in
  let w' := snd (run_python_code default_settings writer_code "session" w) in
  let r := {| wf_id := 1; wf_session_id := "session"; wf_filename := "a.txt";
              wf_file_path := "a.txt"; wf_file_size := 3; wf_file_type := "txt";
              wf_description := None; wf_execution_id := Some 1%nat;
              wf_created_at := 1005 |} in
  r ∈ workspace_files (ledger w')
  /\ (r ∈ workspace_files (ledger w)
      \/ (wf_session_id r = "session"
          /\ wf_file_path r = wf_filename r
          /\ workspace w' ≫= (fun files => files !! wf_filename r) = Some (wf_file_size r)
          /\ wf_file_type r = file_type_of (wf_filename r)
          /\ wf_description r = None
          /\ exists e,
               e ∈ code_executions (ledger w')
               /\ wf_execution_id r = Some (ex_id e)
               /\ ex_session_id e = "session"
               /\ wf_filename r ∈ ex_created_files e)).
Proof.
  intros w w' r.
  assert (Hr : r ∈ workspace_files (ledger w')) by (vm_compute; left).
  split; [exact Hr|].
  exact (file_records_describe_files default_settings writer_code "session" w r Hr).
Defined.







(** ** The history tool *)

(** X19. [get_execution_history] never raises and writes nothing. When the
    commit that closes its session fails it answers with the "Error
    fetching" message, whatever the query found; otherwise it answers with
    the "No execution history" message when the query found no row (also
    when the limit is 0), and with the header, which counts the rows
    found, followed by the lines of each row. *)
Theorem execution_history_tool
    (strftime : Z -> string) (session_id : string) (limit : nat) (w : World) :
  let history := get_session_history (ledger w) session_id limit in
  exists w',
    get_execution_history strftime session_id limit w
    = (Ok match commit_faults (ledger w) with
          | true :: _ => "Error fetching execution history: database is unavailable"
          | _ =>
              match history with
              | [] => no_history_message session_id
              | _ => join nl (history_header (length history)
                              :: history_entries strftime 1 history)
              end
          end, w')
    /\ same_host w w' /\ console w' = console w
    /\ grows_by (ledger w) (ledger w') [].
Proof.
  intros history. subst history.
  unfold get_execution_history, with_get_db, query, session_commit, SessionLocal.
  unfold_monad.
  destruct (get_session_history (ledger w) session_id limit) as [|e rest] eqn:Hq;
    simpl; destruct (commit_faults (ledger w)) as [|[] faults] eqn:Hfaults; simpl.
  all: eexists; (split; [reflexivity|]); simpl.
  all: split; [unfold same_host; simpl; tauto|].
  all: split; [reflexivity|].
  all: unfold grows_by; simpl; rewrite ?app_nil_r; auto.
Qed.

Lemma no_char_cons (x c : ascii) (s : string) :
  contains (String x "") (String c s) = false ->
  c <> x /\ contains (String x "") s = false.
Proof.
  cbn [contains startswith]. destruct (Ascii.eqb_spec x c) as [<-|Hne].
  - discriminate.
  - simpl. intros H. split; [congruence | exact H].
Qed.

Lemma first_line_no_newline (s : string) : contains nl (first_line s) = false.
Proof.
  induction s as [|c s IH]; [reflexivity|]. simpl.
  destruct (Ascii.eqb_spec c "010"%char) as [->|Hne]; [reflexivity|].
  unfold nl in *. cbn [contains startswith].
  destruct (Ascii.eqb_spec "010"%char c) as [<-|_]; [contradiction|].
  simpl. exact IH.
Qed.

Lemma str_take_no_char (x : ascii) (n : nat) (s : string) :
  contains (String x "") s = false -> contains (String x "") (str_take n s) = false.
Proof.
  revert s. induction n as [|n IH]; intros [|c s] H; try reflexivity.
  apply no_char_cons in H as [Hc Hs]. simpl. cbn [contains startswith].
  destruct (Ascii.eqb_spec x c) as [<-|_]; [contradiction|].
  simpl. now apply IH.
Qed.

Lemma startswith_first_line (n : nat) (s : string) :
  startswith (str_take n (first_line s)) s = true.
Proof.
  revert n. induction s as [|c s IH]; intros [|n]; try reflexivity.
  simpl. destruct (Ascii.eqb_spec c "010"%char) as [->|Hne]; [reflexivity|].
  simpl. rewrite Ascii.eqb_refl. apply IH.
Qed.

(** X20. The last line of an execution in the history is a preview of its
    code: at most 60 characters, taken from the start of the code, up to
    but not including its first newline, followed by three dots. *)
Theorem history_code_preview (strftime : Z -> string) (i : nat) (exec : CodeExecution) :
  exists preview,
    last (history_entry strftime i exec) = Some ("   Code: " +:+ preview +:+ "...")
    /\ (len preview <= 60)%nat
    /\ contains nl preview = false
    /\ startswith preview (ex_code exec) = true
    /\ (contains nl (ex_code exec) = false -> (len (ex_code exec) <= 60)%nat ->
        preview = ex_code exec).
Proof.
  exists (str_take 60 (first_line (ex_code exec))). split_and!.
  - unfold history_entry. rewrite !app_assoc. apply last_snoc.
  - rewrite len_str_take. lia.
  - apply str_take_no_char, first_line_no_newline.
  - apply startswith_first_line.
  - intros Hone Hshort.
    assert (Hline : first_line (ex_code exec) = ex_code exec).
    { clear Hshort. induction (ex_code exec) as [|c s IH]; [reflexivity|].
      apply no_char_cons in Hone as [Hc Hs]. simpl.
      destruct (Ascii.eqb_spec c "010"%char); [contradiction|]. now rewrite IH. }
    rewrite Hline. now apply str_take_all.
Qed.

(** ** Stripping the captured output *)

Lemma lstrip_spec (s : string) :
  exists a, s = a +:+ lstrip s /\ all_space a = true
            /\ starts_with_space (lstrip s) = false.
Proof.
  induction s as [|c s (a & Hs & Ha & Hl)].
  - now exists "".
  - simpl. destruct (is_space c) eqn:Hc.
    + exists (String c a). rewrite app_String, <- Hs. simpl. rewrite Hc, Ha. auto.
    + exists "". simpl. auto.
Qed.

Lemma rstrip_spec (s : string) :
  exists b, s = rstrip s +:+ b /\ all_space b = true
            /\ ends_with_space (rstrip s) = false
            /\ (starts_with_space s = false -> starts_with_space (rstrip s) = false).
Proof.
  induction s as [|c s (b & Hs & Hb & He & _)].
  - now exists "".
  - simpl. destruct (rstrip s) as [|d r] eqn:Hr.
    + rewrite app_empty_l in Hs. subst b. destruct (is_space c) eqn:Hc.
      * exists (String c s). simpl. rewrite Hc, Hb. auto.
      * exists s. simpl. rewrite Hc. auto.
    + exists b. rewrite app_String, <- Hs. split; [reflexivity|].
      split; [exact Hb|]. split; [exact He | auto].
Qed.

Lemma lstrip_id (s : string) : starts_with_space s = false -> lstrip s = s.
Proof. destruct s as [|c s]; simpl; [reflexivity | now intros ->]. Qed.

Lemma rstrip_id (s : string) : ends_with_space s = false -> rstrip s = s.
Proof.
  induction s as [|c s IH]; [reflexivity|]. simpl.
  destruct s as [|d s]; [now intros -> |]. intros H. now rewrite IH.
Qed.

(** X21. [strip], as [run_python_code] applies it to the captured stdout
    and stderr, removes white space at both ends and nothing else: the
    text is the stripped text between two runs of white space, the
    stripped text neither starts nor ends with white space, and stripping
    again changes nothing. *)
Theorem strip_removes_surrounding_space (s : string) :
  (exists a b, s = a +:+ strip s +:+ b /\ all_space a = true /\ all_space b = true)
  /\ starts_with_space (strip s) = false
  /\ ends_with_space (strip s) = false
  /\ strip (strip s) = strip s.
Proof.
  unfold strip.
  destruct (lstrip_spec s) as (a & Hs & Ha & Hl).
  destruct (rstrip_spec (lstrip s)) as (b & Hr & Hb & He & Hstart).
  split_and!.
  - exists a, b. rewrite <- Hr. auto.
  - now apply Hstart.
  - exact He.
  - rewrite (lstrip_id (rstrip (lstrip s))) by now apply Hstart.
    now apply rstrip_id.
Qed.

(** ** Saving and listing file records *)


#[global] Instance file_newer_first_trans : Transitive file_newer_first.
Proof. unfold file_newer_first. intros a b c. lia. Qed.

#[global] Instance file_newer_first_total : Total file_newer_first.
Proof. unfold file_newer_first. intros a b. lia. Qed.

(** X23. The files of a session, as [get_session_files] lists them, are
    exactly the file records of that session, each as often as it is in the
    ledger, the most recent first. *)
Theorem session_files_recent_first (l : Ledger) (session_id : string) :
  let files := get_session_files l session_id in
  (forall r, r ∈ files <-> r ∈ workspace_files l /\ wf_session_id r = session_id)
  /\ files ≡ₚ List.filter (fun f => String.eqb (wf_session_id f) session_id)
                (workspace_files l)
  /\ StronglySorted (fun a b => wf_created_at b <= wf_created_at a) files.
Proof.
  intros files. subst files. unfold get_session_files, files_most_recent_first.
  split_and!.
  - intros r. rewrite merge_sort_Permutation, list_elem_of_In, filter_In,
      <- list_elem_of_In, String.eqb_eq. reflexivity.
  - apply merge_sort_Permutation.
  - apply (StronglySorted_merge_sort file_newer_first).
Qed.
